(** * tax26: the response normalizer, the workflow client, the document
      reader and the session history of the chat front-end

    The development embeds [src/tax.py] (and the resume handler of
    [src/app.py]) as executable Rocq functions and proves the properties of
    the specification about them.

    Conventions of the embedding.
    - A Python [str] is a Rocq [string]; each character stands for the code
      point of the same number (U+0000 to U+00FF).
    - A value decoded from JSON is a [value]; a [dict] is an association
      list in insertion order with [get] returning the first binding.
    - A Python call either returns or raises: [result A].
    - Code that touches the session store, the network or the chat window
      runs in the monad [M], which threads a [world] and stops at the first
      exception. *)

From Stdlib Require Import List String Ascii ZArith Bool Lia.
From Stdlib Require Import Numbers.DecimalString.
Import ListNotations.

Set Warnings "-register-all".

Open Scope string_scope.
Open Scope Z_scope.

(** ** Python values and exceptions *)

(** The classes named by the program or raised under it.  All but the last
    derive from [Exception].  [ClsClientTimeout] is [aiohttp.ClientTimeout],
    the settings class that [call_n8n_chain] instantiates for the
    [timeout=] argument of the request; it is not an exception type. *)
Inductive py_class : Type :=
| ClsException
| ClsAttributeError
| ClsTypeError
| ClsIndexError
| ClsTimeoutError
| ClsOther (name : string)
| ClsClientTimeout.

Record exn : Type := MkExn { exn_class : py_class; exn_msg : string }.

Inductive result (A : Type) : Type :=
| Ok (a : A)
| Raise (e : exn).
Arguments Ok {A} a.
Arguments Raise {A} e.

Definition rbind {A B} (r : result A) (k : A -> result B) : result B :=
  match r with
  | Ok a => k a
  | Raise e => Raise e
  end.

Notation "x <-! r ;; k" := (rbind r (fun x => k))
  (at level 61, r at next level, right associativity).

(** A float is observed by the program in two ways only: its truth value
    (false exactly for 0.0 and -0.0) and its [str()] text. *)
Record py_float : Type := MkFloat { float_is_zero : bool; float_str : string }.

Inductive value : Type :=
| VNone
| VBool (b : bool)
| VInt (z : Z)
| VFloat (f : py_float)
| VStr (s : string)
| VList (l : list value)
| VDict (d : list (string * value)).

Definition dict : Type := list (string * value).

(** ** Strings *)

Definition nl : string := String "010" EmptyString.
Definition dquote : string := String "034" EmptyString.

Fixpoint join (sep : string) (parts : list string) : string :=
  match parts with
  | [] => ""
  | [p] => p
  | p :: rest => p ++ sep ++ join sep rest
  end.

Fixpoint concat_all (parts : list string) : string :=
  match parts with
  | [] => ""
  | p :: rest => p ++ concat_all rest
  end.

(** [needle in hay], and [hay.endswith(suffix)]. *)
Fixpoint contains (needle hay : string) : bool :=
  prefix needle hay ||
  match hay with
  | EmptyString => false
  | String _ hay' => contains needle hay'
  end.

Fixpoint endswith (s suffix : string) : bool :=
  String.eqb s suffix ||
  match s with
  | EmptyString => false
  | String _ s' => endswith s' suffix
  end.

(** [str.isspace] on one character. *)
Definition is_space (c : ascii) : bool :=
  let n := nat_of_ascii c in
  ((9 <=? n) && (n <=? 13) || (28 <=? n) && (n <=? 32)
   || (n =? 133) || (n =? 160))%nat.

Fixpoint lstrip (s : string) : string :=
  match s with
  | EmptyString => ""
  | String c s' => if is_space c then lstrip s' else s
  end.

Fixpoint rstrip (s : string) : string :=
  match s with
  | EmptyString => ""
  | String c s' =>
      match rstrip s' with
      | EmptyString => if is_space c then "" else String c ""
      | r => String c r
      end
  end.

Definition strip (s : string) : string := rstrip (lstrip s).

Definition str_of_Z (z : Z) : string := NilEmpty.string_of_int (Z.to_int z).

(** ** [bool()], [type().__name__], [repr()] and [str()] *)

Definition truthy (v : value) : bool :=
  match v with
  | VNone => false
  | VBool b => b
  | VInt z => negb (z =? 0)
  | VFloat f => negb (float_is_zero f)
  | VStr s => negb (String.eqb s "")
  | VList l => match l with [] => false | _ => true end
  | VDict d => match d with [] => false | _ => true end
  end.

Definition type_name (v : value) : string :=
  match v with
  | VNone => "NoneType"
  | VBool _ => "bool"
  | VInt _ => "int"
  | VFloat _ => "float"
  | VStr _ => "str"
  | VList _ => "list"
  | VDict _ => "dict"
  end.

Definition hex_digit (n : nat) : ascii :=
  (if n <? 10 then ascii_of_nat (48 + n) else ascii_of_nat (87 + n))%nat.

Definition hex_escape (c : ascii) : string :=
  let n := nat_of_ascii c in
  "\x" ++ String (hex_digit (n / 16)) (String (hex_digit (n mod 16)) "").

Definition is_printable (c : ascii) : bool :=
  let n := nat_of_ascii c in
  ((32 <=? n) && (n <=? 126) || (161 <=? n) && negb (n =? 173))%nat.

Fixpoint has_char (c : ascii) (s : string) : bool :=
  match s with
  | EmptyString => false
  | String c' s' => Ascii.eqb c c' || has_char c s'
  end.

Fixpoint repr_chars (quote : ascii) (s : string) : string :=
  match s with
  | EmptyString => ""
  | String c s' =>
      (if Ascii.eqb c quote || Ascii.eqb c "\"%char then String "\"%char (String c "")
       else if Ascii.eqb c "009"%char then "\t"
       else if Ascii.eqb c "010"%char then "\n"
       else if Ascii.eqb c "013"%char then "\r"
       else if is_printable c then String c ""
       else hex_escape c)
      ++ repr_chars quote s'
  end.

(** [repr] of a [str]: single quotes, unless the text holds a single quote
    and no double quote. *)
Definition repr_str (s : string) : string :=
  let quote :=
    if has_char "'"%char s && negb (has_char "034"%char s)
    then "034"%char else "'"%char in
  String quote (repr_chars quote s ++ String quote "").

Fixpoint py_repr (v : value) : string :=
  match v with
  | VNone => "None"
  | VBool true => "True"
  | VBool false => "False"
  | VInt z => str_of_Z z
  | VFloat f => float_str f
  | VStr s => repr_str s
  | VList l => "[" ++ join ", " (map py_repr l) ++ "]"
  | VDict d =>
      "{" ++ join ", " (map (fun kv => let '(k, x) := kv in
                                       repr_str k ++ ": " ++ py_repr x) d) ++ "}"
  end.

(** [str(v)], which is also what an f-string field [{v}] renders. *)
Definition py_str (v : value) : string :=
  match v with
  | VStr s => s
  | _ => py_repr v
  end.

(** ** Operations on values *)

Definition attribute_error (v : value) (attr : string) : exn :=
  MkExn ClsAttributeError
        ("'" ++ type_name v ++ "' object has no attribute '" ++ attr ++ "'").

Definition not_iterable (v : value) : exn :=
  MkExn ClsTypeError ("'" ++ type_name v ++ "' object is not iterable").

Definition index_error : exn := MkExn ClsIndexError "list index out of range".

(** [a or b] *)
Definition py_or (a b : value) : value := if truthy a then a else b.

Fixpoint lookup (d : dict) (k : string) : option value :=
  match d with
  | [] => None
  | (k', v) :: d' => if String.eqb k k' then Some v else lookup d' k
  end.

(** [d.get(k, default)] on a dict; [d.get(k)] is [get d k VNone]. *)
Definition get (d : dict) (k : string) (default : value) : value :=
  match lookup d k with
  | Some v => v
  | None => default
  end.

(** [v.get(k, default)] on any value: the attribute exists on dicts only. *)
Definition attr_get (v : value) (k : string) (default : value) : result value :=
  match v with
  | VDict d => Ok (get d k default)
  | _ => Raise (attribute_error v "get")
  end.

(** [l[0]] on a list. *)
Definition first_item (l : list value) : result value :=
  match l with
  | x :: _ => Ok x
  | [] => Raise index_error
  end.

(** [v.strip()] *)
Definition attr_strip (v : value) : result string :=
  match v with
  | VStr s => Ok (strip s)
  | _ => Raise (attribute_error v "strip")
  end.

Fixpoint chars_of (s : string) : list value :=
  match s with
  | EmptyString => []
  | String c s' => VStr (String c "") :: chars_of s'
  end.

(** The items a [for] loop draws from [v]. *)
Definition py_iter (v : value) : result (list value) :=
  match v with
  | VList l => Ok l
  | VStr s => Ok (chars_of s)
  | VDict d => Ok (map (fun kv => VStr (fst kv)) d)
  | _ => Raise (not_iterable v)
  end.

Fixpoint map_result {A B} (f : A -> result B) (l : list A) : result (list B) :=
  match l with
  | [] => Ok []
  | x :: l' =>
      y <-! f x ;;
      ys <-! map_result f l' ;;
      Ok (y :: ys)
  end.

(** ** The response normalizer, [extract_text] *)

Definition no_response : string :=
  " No response received." ++ nl ++ nl ++ " Sources: None".

(** Lines 64-70: the [or] chain over the four answer fields. *)
Definition answer_of (data : dict) : value :=
  py_or (get data "answer" VNone)
   (py_or (get data "response" VNone)
     (py_or (get data "output" VNone)
       (py_or (get data "cleanedResponse" VNone)
         (VStr "")))).

(** Line 81: one line of the sources block. *)
Definition format_citation (c : value) : result string :=
  source <-! attr_get c "source" VNone ;;
  section <-! attr_get c "section" (VStr "") ;;
  reference <-! attr_get c "reference" section ;;
  Ok ("- " ++ py_str source ++ " (" ++ py_str reference ++ ")").

(** Lines 80-83: the generator is drawn by [join] from left to right. *)
Definition format_sources (citations : value) : result string :=
  items <-! py_iter citations ;;
  lines <-! map_result format_citation items ;;
  Ok (join nl lines).

Definition extract_text (data : value) : result string :=
  if negb (truthy data) then Ok no_response
  else
    data <-! match data with
             | VList l => first_item l
             | _ => Ok data
             end ;;
    match data with
    | VDict d =>
        let answer := answer_of d in
        let citations := get d "citations" (VList []) in
        if negb (truthy citations) then
          Ok (py_str (py_or answer (VStr "Response rejected.")) ++ nl ++ nl ++ "")
        else
          formatted_sources <-! format_sources citations ;;
          stripped <-! attr_strip answer ;;
          Ok (stripped ++ nl ++ nl ++ " Sources:" ++ nl ++ formatted_sources)
    | _ => Ok (py_str data ++ nl ++ nl ++ " Sources: None")
    end.

(** ** The world around the handlers *)

Record turn : Type := MkTurn { role : string; content : value }.

Record request : Type := MkRequest { req_url : string; req_chatInput : string }.

(** What one POST to the webhook comes to: the call raises (a refused
    connection, the total timeout expiring), or a response arrives with its
    status, its Content-Type header if any, and what [response.json()]
    gives. *)
Inductive post_outcome : Type :=
| PostRaises (e : exn)
| PostResponse (status : Z) (content_type : option string) (body : result value).

(** [asyncio.TimeoutError], raised when the total timeout of the request
    expires; its [str()] is empty. *)
Definition timeout_error : exn := MkExn ClsTimeoutError "".

Record document : Type := MkDocument { name : string; path : string }.

(** The process environment and the collaborators: the configured webhook
    address, the workflow engine behind it, and the three file readers
    ([fitz] page texts, [docx] paragraph texts, a UTF-8 text file). *)
Record env : Type := MkEnv {
  N8N_WEBHOOK_URL : option string;
  webhook : request -> post_outcome;
  pdf_pages : string -> result (list string);
  docx_paragraphs : string -> result (list string);
  txt_content : string -> result string
}.

Inductive ui_event : Type :=
| StepSent (step_name : string)
| StepUpdated (step_name output : string)
| StepFailed (step_name output : string)
| MessageSent (text : string)
| MessageUpdated (text : string).

(** The session store keeps the list object under the key ["chat_history"]
    ([None]: the key was never set); [http_calls] and [window] record, oldest
    first, the requests posted and what was shown. *)
Record world : Type := MkWorld {
  chat_history : option (list turn);
  http_calls : list request;
  window : list ui_event
}.

Definition M (A : Type) : Type := world -> result A * world.

Definition ret {A} (a : A) : M A := fun w => (Ok a, w).

Definition bind {A B} (m : M A) (k : A -> M B) : M B :=
  fun w =>
    match m w with
    | (Ok a, w') => k a w'
    | (Raise e, w') => (Raise e, w')
    end.

Definition lift {A} (r : result A) : M A := fun w => (r, w).

Notation "x <- m ;; k" := (bind m (fun x => k))
  (at level 61, m at next level, right associativity).
Notation "m ;;; k" := (bind m (fun _ => k))
  (at level 61, right associativity).

Definition emit (e : ui_event) : M unit :=
  fun w => (Ok tt, MkWorld (chat_history w) (http_calls w) (window w ++ [e])).

(** [async with cl.Step(name=...) as step:] the step is sent when the block
    is entered and updated once more when it is left; when the body raised,
    that last update carries the text of the exception and marks the step as
    failed.  The body hands back, with its value, the output it gave the
    step. *)
Definition with_step {A} (step_name : string) (body : M (A * string)) : M A :=
  fun w =>
    match (emit (StepSent step_name) ;;; body) w with
    | (Ok (a, output), w') =>
        (Ok a,
         MkWorld (chat_history w') (http_calls w')
                 (window w' ++ [StepUpdated step_name output]))
    | (Raise e, w') =>
        (Raise e,
         MkWorld (chat_history w') (http_calls w')
                 (window w' ++ [StepFailed step_name (exn_msg e)]))
    end.

(** ** [try] / [except] *)

Definition is_exception_class (c : py_class) : bool :=
  match c with
  | ClsClientTimeout => false
  | _ => true
  end.

Definition py_class_eqb (a b : py_class) : bool :=
  match a, b with
  | ClsException, ClsException
  | ClsAttributeError, ClsAttributeError
  | ClsTypeError, ClsTypeError
  | ClsIndexError, ClsIndexError
  | ClsTimeoutError, ClsTimeoutError
  | ClsClientTimeout, ClsClientTimeout => true
  | ClsOther x, ClsOther y => String.eqb x y
  | _, _ => false
  end.

(** [issubclass(c, base)] among the classes above. *)
Definition subclass (c base : py_class) : bool :=
  match base with
  | ClsException => is_exception_class c
  | _ => py_class_eqb c base
  end.

Definition catching_non_exception : exn :=
  MkExn ClsTypeError
        "catching classes that do not inherit from BaseException is not allowed".

(** Testing a raised exception against the class of an [except] clause.
    The test itself raises [TypeError] when the class is not an exception
    class. *)
Definition except_match (raised : exn) (cls : py_class) : result bool :=
  if is_exception_class cls then Ok (subclass (exn_class raised) cls)
  else Raise catching_non_exception.

(** The clauses are tried in order once the body has raised; an exception
    raised by the test of a clause leaves the statement, and so does the
    original one when no clause matches. *)
Fixpoint handle {A} (raised : exn) (clauses : list (py_class * (exn -> M A)))
  : M A :=
  match clauses with
  | [] => lift (Raise raised)
  | (cls, handler) :: rest =>
      matched <- lift (except_match raised cls) ;;
      if matched then handler raised else handle raised rest
  end.

Definition try_except {A} (body : M A) (clauses : list (py_class * (exn -> M A)))
  : M A :=
  fun w =>
    match body w with
    | (Ok a, w') => (Ok a, w')
    | (Raise e, w') => handle e clauses w'
    end.

(** ** The prompt builder, [enforce_citation_prompt] *)

Definition field (indent key text tail : string) : string :=
  indent ++ dquote ++ key ++ dquote ++ ": " ++ dquote ++ text ++ dquote ++ tail.

Definition enforce_citation_prompt (user_message : string) : string :=
  concat_all (map (fun line => line ++ nl)
    [ "";
      "You are a regulated tax consultant.";
      "";
      "MANDATORY RULES (NON-NEGOTIABLE):";
      "- Every response MUST include citations";
      "- Citations MUST reference real tax laws, regulations, or official guidance";
      "- Return ONLY valid JSON in the format below";
      "";
      "FORMAT:";
      "{";
      field "  " "answer" "Clear and professional response" ",";
      "  " ++ dquote ++ "citations" ++ dquote ++ ": [";
      "    {";
      field "      " "source" "Document name" ",";
      field "      " "section" "Section or clause" ",";
      field "      " "reference" "Exact legal citation" "";
      "    }";
      "  ]";
      "}";
      "";
      "If citations cannot be provided, respond with:";
      "{";
      field "  " "answer" "I cannot answer this question with certainty." ",";
      "  " ++ dquote ++ "citations" ++ dquote ++ ": []";
      "}";
      "";
      "User question:";
      user_message ]).

(** ** The document reader, [read_documents] *)

(** The branch of one document: what is added to [text] after its header. *)
Definition read_body (cfg : env) (text : string) (document : document)
  : result string :=
  if endswith (path document) ".pdf" then
    doc <-! pdf_pages cfg (path document) ;;
    Ok (fold_left (fun text page => text ++ page) doc text)
  else if endswith (path document) ".docx" then
    paragraphs <-! docx_paragraphs cfg (path document) ;;
    Ok (text ++ join nl paragraphs)
  else if endswith (path document) ".txt" then
    content <-! txt_content cfg (path document) ;;
    Ok (text ++ content)
  else Ok text.

Fixpoint read_documents_loop (cfg : env) (text : string) (documents : list document)
  : result string :=
  match documents with
  | [] => Ok text
  | document :: rest =>
      let text := text ++ nl ++ nl ++ "FILE: " ++ name document ++ nl in
      text <-! read_body cfg text document ;;
      read_documents_loop cfg text rest
  end.

Definition read_documents (cfg : env) (documents : list document) : result string :=
  read_documents_loop cfg "" documents.

(** ** The workflow client, [call_n8n_chain] *)

Definition str_truthy (s : option string) : bool :=
  match s with
  | Some s => negb (String.eqb s "")
  | None => false
  end.

(** [session.post(url, json={"chatInput": ...}, timeout=...)]: the request
    goes out (and is recorded) and the engine answers or the call raises. *)
Definition post (cfg : env) (url chatInput : string)
  : M (Z * option string * result value) :=
  fun w =>
    let rq := MkRequest url chatInput in
    let w' := MkWorld (chat_history w) (http_calls w ++ [rq]) (window w) in
    match webhook cfg rq with
    | PostRaises e => (Raise e, w')
    | PostResponse status content_type body => (Ok (status, content_type, body), w')
    end.

Definition call_n8n_chain (cfg : env) (user_message : string)
           (document_context : option string) : M string :=
  if negb (str_truthy (N8N_WEBHOOK_URL cfg)) then
    ret " N8N_WEBHOOK_URL not configured."
  else
    let enforced_message := enforce_citation_prompt user_message in
    let enforced_message :=
      if str_truthy document_context then
        "DOCUMENT CONTEXT (FOR CITATION ONLY):" ++ nl
        ++ match document_context with Some c => c | None => "None" end ++ nl ++ nl
        ++ enforced_message
      else enforced_message in
    try_except
      (response <- post cfg
                    (match N8N_WEBHOOK_URL cfg with Some u => u | None => "" end)
                    enforced_message ;;
       let '(status, content_type_header, body) := response in
       if negb (status =? 200) then
         ret (" n8n returned status " ++ str_of_Z status)
       else
         let content_type :=
           match content_type_header with Some c => c | None => "" end in
         if negb (contains "application/json" content_type) then
           ret " n8n returned invalid content type."
         else
           data <- lift body ;;
           lift (extract_text data))
      [ (ClsClientTimeout, fun _ => ret " Request to n8n timed out.");
        (ClsException, fun e => ret (" Unexpected error: " ++ exn_msg e)) ].

(** ** The session history and the handlers *)

(** The name a handler holds for a history list: the very list object kept
    by the session store, or a list no one else holds yet. *)
Inductive history_ref : Type :=
| Stored
| Private (l : list turn).

(** [cl.user_session.get("chat_history", [])] hands out the stored object
    itself, or a new empty list when the key was never set. *)
Definition session_get : M history_ref :=
  fun w =>
    match chat_history w with
    | Some _ => (Ok Stored, w)
    | None => (Ok (Private []), w)
    end.

(** [history.extend(turns)] changes the list object in place, so the store
    sees it at once when the object is the stored one. *)
Definition extend (r : history_ref) (turns : list turn) : M history_ref :=
  fun w =>
    match r with
    | Stored =>
        (Ok Stored,
         MkWorld (option_map (fun h => (h ++ turns)%list) (chat_history w))
                 (http_calls w) (window w))
    | Private l => (Ok (Private (l ++ turns)%list), w)
    end.

(** [cl.user_session.set("chat_history", history)] *)
Definition session_set (r : history_ref) : M unit :=
  fun w =>
    match r with
    | Stored => (Ok tt, w)
    | Private l => (Ok tt, MkWorld (Some l) (http_calls w) (window w))
    end.

(** What a reader of the session gets: the stored list, empty by default. *)
Definition history (w : world) : list turn :=
  match chat_history w with
  | Some h => h
  | None => []
  end.

Definition is_str (v : value) (s : string) : bool :=
  match v with
  | VStr s' => String.eqb s' s
  | _ => false
  end.

(** A persisted thread: [steps] is [None] when the key is missing; a step
    is a dict read with [get]. *)
Record ThreadDict : Type := MkThread { steps : option (list dict) }.

(** The loop of [on_chat_resume] in [tax.py], lines 176-180. *)
Definition resume_step (history : list turn) (step : dict) : list turn :=
  if is_str (get step "type" VNone) "user_message" then
    (history ++ [MkTurn "user" (get step "output" (VStr ""))])%list
  else if is_str (get step "type" VNone) "assistant_message" then
    (history ++ [MkTurn "assistant" (get step "output" (VStr ""))])%list
  else history.

Definition on_chat_resume (thread : ThreadDict) : M unit :=
  let history := [] in
  let history :=
    fold_left resume_step
              (match steps thread with Some l => l | None => [] end) history in
  session_set (Private history).

Module App.

(** The same handler in [app.py], lines 52-65: type and output are read
    first, then tested. *)
Definition resume_step (chat_history : list turn) (step : dict) : list turn :=
  let msg_type := get step "type" VNone in
  let output := get step "output" (VStr "") in
  if is_str msg_type "user_message" then
    (chat_history ++ [MkTurn "user" output])%list
  else if is_str msg_type "assistant_message" then
    (chat_history ++ [MkTurn "assistant" output])%list
  else chat_history.

Definition on_chat_resume (thread : ThreadDict) : M unit :=
  let chat_history := [] in
  let chat_history :=
    fold_left resume_step
              (match steps thread with Some l => l | None => [] end)
              chat_history in
  session_set (Private chat_history).

End App.

Module Message.
(** An incoming message.  Every element is an object, hence true in the
    filter [[f for f in message.elements if f]]. *)
Record t : Type := Mk { content : string; elements : list document }.
End Message.

Definition on_message (cfg : env) (message : Message.t) : M unit :=
  chat_history <- session_get ;;
  let files := Message.elements message in
  document_context <-
    match files with
    | [] => ret None
    | _ :: _ =>
        with_step "Reading documents"
          (document_context <- lift (read_documents cfg files) ;;
           let output :=
             "Processed " ++ str_of_Z (Z.of_nat (List.length files))
             ++ " document(s)" in
           emit (StepUpdated "Reading documents" output) ;;;
           ret (Some document_context, output))
    end ;;
  emit (MessageSent "") ;;;
  reply <- call_n8n_chain cfg (Message.content message) document_context ;;
  emit (MessageUpdated (strip reply)) ;;;
  chat_history <- extend chat_history
                    [ MkTurn "user" (VStr (Message.content message));
                      MkTurn "assistant" (VStr reply) ] ;;
  session_set chat_history.

(** ** The credential check and the other handlers of [app.py] *)

(** [cl.User]: the identifier and the metadata, empty unless given. *)
Record User : Type := MkUser {
  identifier : string;
  metadata : list (string * string)
}.

(** [auth_callback] of [tax.py], lines 219-223. *)
Definition auth_callback (username password : string) : option User :=
  if String.eqb username "admin" && String.eqb password "admin"
  then Some (MkUser "admin" [])
  else None.

(** [history.append(turn)] *)
Definition append_turn (r : history_ref) (t : turn) : M history_ref :=
  extend r [t].

(** The items of the list a name stands for, as [*chat_history] reads
    them. *)
Definition contents (r : history_ref) : M (list turn) :=
  fun w =>
    match r with
    | Stored => (Ok (history w), w)
    | Private l => (Ok l, w)
    end.

Module AppHandlers.

(** [auth_callback] of [app.py], lines 99-106. *)
Definition auth_callback (username password : string) : option User :=
  if String.eqb username "admin" && String.eqb password "admin"
  then Some (MkUser "admin" [("role", "admin"); ("provider", "credentials")])
  else None.

(** The data layer built by [SQLAlchemyDataLayer(conninfo=..., show_logger=...)]. *)
Record data_layer : Type := MkDataLayer { conninfo : string; show_logger : bool }.

(** The environment of [get_data_layer]: the variable [DATABASE_URL] and
    the constructor of the data layer, which may raise. *)
Record db_env : Type := MkDbEnv {
  DATABASE_URL : option string;
  SQLAlchemyDataLayer : string -> bool -> result data_layer
}.

(** [get_data_layer], lines 28-47; [stdout] collects the printed lines. *)
Definition get_data_layer (cfg : db_env) (stdout : list string)
  : result (option data_layer) * list string :=
  if negb (str_truthy (DATABASE_URL cfg)) then
    (Ok None,
     (stdout
      ++ ["  WARNING: DATABASE_URL not set. Chat history won't be saved."])%list)
  else
    match SQLAlchemyDataLayer cfg
            (match DATABASE_URL cfg with Some u => u | None => "" end) false with
    | Ok layer => (Ok (Some layer), (stdout ++ [" Database connection established"])%list)
    | Raise e =>
        match except_match e ClsException with
        | Ok true =>
            (Ok None,
             (stdout ++ [(" Database connection failed: " ++ exn_msg e)%string;
                         "  Continuing without persistence..."])%list)
        | Ok false => (Raise e, stdout)
        | Raise e' => (Raise e', stdout)
        end
    end.

(** [on_chat_start], lines 111-118; [user] is the session's [user] entry. *)
Definition on_chat_start (user : option User) : M unit :=
  session_set (Private []) ;;;
  let name :=
    match user with
    | Some u => identifier u
    | None => "there"
    end in
  emit (MessageSent ("Hello " ++ name ++ " ")).

(** The keyword arguments of one chat completion. *)
Record completion_request : Type := MkCompletion {
  messages : list turn;
  model : string;
  temperature : Z;
  max_tokens : Z
}.

(** The language model: the call raises, or a response arrives whose
    choices each carry the text of a message. *)
Record openai_env : Type := MkOpenAI {
  create : completion_request -> result (list string)
}.

Definition system_turn : turn :=
  MkTurn "system" (VStr "You are a helpful assistant. Always reply in English.").

(** [response.choices[0].message.content] *)
Definition first_choice (choices : list string) : result string :=
  match choices with
  | c :: _ => Ok c
  | [] => Raise index_error
  end.

(** [on_message], lines 70-94. *)
Definition on_message (cfg : openai_env) (message : Message.t) : M unit :=
  chat_history <- session_get ;;
  chat_history <- append_turn chat_history
                    (MkTurn "user" (VStr (Message.content message))) ;;
  sent <- contents chat_history ;;
  response <- lift (create cfg (MkCompletion (system_turn :: sent)
                                             "gpt-4o-mini" 0 500)) ;;
  reply <- lift (first_choice response) ;;
  chat_history <- append_turn chat_history (MkTurn "assistant" (VStr reply)) ;;
  session_set chat_history ;;;
  emit (MessageSent reply).

End AppHandlers.

(** * Reference definitions

    The statements below are phrased with these: the parts of the handlers
    taken apart, the wording of the specification as functions, and the
    inputs of the examples. *)

(** Lines 74-85, for the answer and the citations read off the record. *)
Definition render_answer (answer citations : value) : result string :=
  if negb (truthy citations) then
    Ok (py_str (py_or answer (VStr "Response rejected.")) ++ nl ++ nl)
  else
    formatted_sources <-! format_sources citations ;;
    stripped <-! attr_strip answer ;;
    Ok (stripped ++ nl ++ nl ++ " Sources:" ++ nl ++ formatted_sources).

(** Lines 61-85, once the working record is at hand. *)
Definition render_record (data : value) : result string :=
  match data with
  | VDict d => render_answer (answer_of d) (get d "citations" (VList []))
  | _ => Ok (py_str data ++ nl ++ nl ++ " Sources: None")
  end.

(** The record [extract_text] works on: the first element of a list, the
    value itself otherwise. *)
Definition working_record (data : value) : value :=
  match data with
  | VList (x :: _) => x
  | _ => data
  end.

Definition is_dict (v : value) : bool :=
  match v with
  | VDict _ => true
  | _ => false
  end.

(** The inputs on which [extract_text] returns: a falsy value, a working
    record that is no object, an object with falsy citations, or an object
    with a string answer whose citations are drawn as objects only. *)
Definition renders (data : value) : bool :=
  negb (truthy data) ||
  match working_record data with
  | VDict d =>
      negb (truthy (get d "citations" (VList []))) ||
      (match py_iter (get d "citations" (VList [])) with
       | Ok items => forallb is_dict items
       | Raise _ => false
       end
       && match answer_of d with VStr _ => true | _ => false end)
  | _ => true
  end.

Definition answer_fields : list string :=
  ["answer"; "response"; "output"; "cleanedResponse"].

(** In the words of the specification: the fields are tried in priority
    order, the first present non-empty value wins, the default is the empty
    string.  A value is empty when its truth value is false. *)
Fixpoint first_present_nonempty (d : dict) (fields : list string) : value :=
  match fields with
  | [] => VStr ""
  | k :: rest =>
      match lookup d k with
      | Some v => if truthy v then v else first_present_nonempty d rest
      | None => first_present_nonempty d rest
      end
  end.

(** In the words of the specification: [- <source> (<reference or section>)],
    the reference when the citation has one, the section otherwise. *)
Definition citation_line (c : dict) : string :=
  "- " ++ py_str (get c "source" VNone) ++ " ("
  ++ py_str (match lookup c "reference" with
             | Some r => r
             | None => get c "section" (VStr "")
             end)
  ++ ")".

Definition example_cited : value :=
  VDict [("answer", VStr "A");
         ("citations", VList [VDict [("source", VStr "S"); ("reference", VStr "R")]])].

Definition example_two_citations : dict :=
  [("output", VStr " B ");
   ("citations",
    VList [VDict [("source", VStr "S1"); ("section", VStr "s 4");
                  ("reference", VStr "R1")];
           VDict [("source", VStr "S2"); ("section", VStr "s 9")]])].

Definition example_uncited : value :=
  VDict [("answer", VStr "A"); ("citations", VList [])].

(** An environment with the given webhook address and engine, and no
    readable file. *)
Definition example_env (url : option string) (engine : request -> post_outcome)
  : env :=
  MkEnv url engine
        (fun _ => Raise (MkExn (ClsOther "FileNotFoundError") "no such file"))
        (fun _ => Raise (MkExn (ClsOther "PackageNotFoundError") "no such file"))
        (fun _ => Raise (MkExn (ClsOther "FileNotFoundError") "no such file")).

Definition empty_world : world := MkWorld None [] [].

(** The request [call_n8n_chain] posts when the address is configured. *)
Definition request_of (cfg : env) (user_message : string)
           (document_context : option string) : request :=
  MkRequest
    (match N8N_WEBHOOK_URL cfg with Some u => u | None => "" end)
    (if str_truthy document_context then
       "DOCUMENT CONTEXT (FOR CITATION ONLY):" ++ nl
       ++ match document_context with Some c => c | None => "None" end
       ++ nl ++ nl ++ enforce_citation_prompt user_message
     else enforce_citation_prompt user_message).

Definition posted (w : world) (rq : request) : world :=
  MkWorld (chat_history w) (http_calls w ++ [rq]) (window w).

(** What the [try] body of [call_n8n_chain] comes to on a response. *)
Definition body_result (outcome : post_outcome) : result string :=
  match outcome with
  | PostRaises e => Raise e
  | PostResponse status content_type body =>
      if negb (status =? 200) then
        Ok (" n8n returned status " ++ str_of_Z status)
      else if negb (contains "application/json"
                      (match content_type with Some c => c | None => "" end))
      then Ok " n8n returned invalid content type."
      else data <-! body ;; extract_text data
  end.

(** What the client returns or raises; it depends on the environment only. *)
Definition client_reply (cfg : env) (user_message : string)
           (document_context : option string) : result string :=
  if str_truthy (N8N_WEBHOOK_URL cfg) then
    match body_result
            (webhook cfg (request_of cfg user_message document_context)) with
    | Ok reply => Ok reply
    | Raise _ => Raise catching_non_exception
    end
  else Ok " N8N_WEBHOOK_URL not configured.".

(** Lines 190-200: the document context of a message. *)
Definition document_context_of (cfg : env) (message : Message.t)
  : result (option string) :=
  match Message.elements message with
  | [] => Ok None
  | files => text <-! read_documents cfg files ;; Ok (Some text)
  end.

(** What the handler has to answer with, if anything. *)
Definition reply_of (cfg : env) (message : Message.t) : result string :=
  document_context <-! document_context_of cfg message ;;
  client_reply cfg (Message.content message) document_context.

Definition exchange (message : Message.t) (reply : string) : list turn :=
  [ MkTurn "user" (VStr (Message.content message));
    MkTurn "assistant" (VStr reply) ].

(** A history made of whole exchanges: a user turn, then an assistant turn. *)
Fixpoint alternates (h : list turn) : bool :=
  match h with
  | [] => true
  | u :: a :: rest =>
      String.eqb (role u) "user" && String.eqb (role a) "assistant"
      && alternates rest
  | _ => false
  end.

(** In the words of the specification: a [user_message] step is a user
    turn, an [assistant_message] step an assistant turn, with the step's
    output as content (the empty string when there is none); any other step
    is ignored. *)
Definition turns_of_step (step : dict) : list turn :=
  let output :=
    match lookup step "output" with
    | Some v => v
    | None => VStr ""
    end in
  match lookup step "type" with
  | Some (VStr t) =>
      if String.eqb t "user_message" then [MkTurn "user" output]
      else if String.eqb t "assistant_message" then [MkTurn "assistant" output]
      else []
  | _ => []
  end.

Definition rehydrate (thread : ThreadDict) : list turn :=
  match steps thread with
  | Some l => flat_map turns_of_step l
  | None => []
  end.

Definition example_thread : ThreadDict :=
  MkThread (Some [ [("type", VStr "user_message"); ("output", VStr "hi")];
                   [("type", VStr "assistant_message"); ("output", VStr "hello")];
                   [("type", VStr "other"); ("output", VStr "x")] ]).

(** In the words of the specification: the header line of a document, and
    its extracted content by extension: the page texts of a PDF in page
    order, the paragraphs of a DOCX joined with newlines, the text of a TXT
    file, and nothing for any other extension. *)
Definition header (document : document) : string :=
  nl ++ nl ++ "FILE: " ++ name document ++ nl.

Definition supported (document : document) : bool :=
  endswith (path document) ".pdf" || endswith (path document) ".docx"
  || endswith (path document) ".txt".

Definition extracted (cfg : env) (document : document) : result string :=
  if endswith (path document) ".pdf" then
    pages <-! pdf_pages cfg (path document) ;; Ok (concat_all pages)
  else if endswith (path document) ".docx" then
    paragraphs <-! docx_paragraphs cfg (path document) ;; Ok (join nl paragraphs)
  else if endswith (path document) ".txt" then
    txt_content cfg (path document)
  else Ok "".

Definition block (body_of : document -> string) (document : document) : string :=
  header document ++ body_of document.

(** An environment with three readable files. *)
Definition example_files : env :=
  MkEnv None (fun _ => PostRaises timeout_error)
        (fun p => if String.eqb p "/tmp/a.pdf" then Ok ["page one "; "page two"]
                  else Raise (MkExn (ClsOther "FileNotFoundError") p))
        (fun p => if String.eqb p "/tmp/b.docx" then Ok ["first"; "second"]
                  else Raise (MkExn (ClsOther "PackageNotFoundError") p))
        (fun p => if String.eqb p "/tmp/c.txt" then Ok "plain text"
                  else Raise (MkExn (ClsOther "FileNotFoundError") p)).

Definition example_documents : list document :=
  [ MkDocument "a.pdf" "/tmp/a.pdf"; MkDocument "b.docx" "/tmp/b.docx";
    MkDocument "c.txt" "/tmp/c.txt"; MkDocument "d.png" "/tmp/d.png" ].

Definition example_body (document : document) : string :=
  if String.eqb (name document) "a.pdf" then "page one page two"
  else if String.eqb (name document) "b.docx" then "first" ++ nl ++ "second"
  else if String.eqb (name document) "c.txt" then "plain text"
  else "".

(** The world after some events were shown. *)
Definition shown (w : world) (events : list ui_event) : world :=
  MkWorld (chat_history w) (http_calls w) (window w ++ events).

(** The world once the attachments of a message were read: the step was
    sent, updated by the handler and updated again when its block was
    left. *)
Definition after_reading (message : Message.t) (w : world) : world :=
  match Message.elements message with
  | [] => w
  | files =>
      shown w [StepSent "Reading documents";
               StepUpdated "Reading documents"
                 ("Processed " ++ str_of_Z (Z.of_nat (List.length files))
                  ++ " document(s)");
               StepUpdated "Reading documents"
                 ("Processed " ++ str_of_Z (Z.of_nat (List.length files))
                  ++ " document(s)")]
  end.

(** The world once reading the attachments has raised: the step was sent
    and, when its block was left, marked as failed with the text of the
    exception. *)
Definition after_failed_reading (e : exn) (w : world) : world :=
  shown w [StepSent "Reading documents";
           StepFailed "Reading documents" (exn_msg e)].

(** The world once the client was called: one request more when an address
    is configured. *)
Definition after_call (cfg : env) (user_message : string)
           (document_context : option string) (w : world) : world :=
  if str_truthy (N8N_WEBHOOK_URL cfg)
  then posted w (request_of cfg user_message document_context)
  else w.

(** One run of [on_message] of [tax.py], told in one piece. *)
Definition on_message_outcome (cfg : env) (message : Message.t) (w : world)
  : result unit * world :=
  match document_context_of cfg message with
  | Raise e => (Raise e, after_failed_reading e w)
  | Ok ctx =>
      let w2 := after_call cfg (Message.content message) ctx
                  (shown (after_reading message w) [MessageSent ""]) in
      match client_reply cfg (Message.content message) ctx with
      | Raise e => (Raise e, w2)
      | Ok reply =>
          (Ok tt,
           MkWorld (Some (history w ++ exchange message reply)%list)
                   (http_calls w2)
                   (window w2 ++ [MessageUpdated (strip reply)]))
      end
  end.



(** The steps of a thread that are user or assistant messages. *)
Definition is_message_step (step : dict) : bool :=
  is_str (get step "type" VNone) "user_message"
  || is_str (get step "type" VNone) "assistant_message".

(** The text before the user question in the prompt. *)
Definition prompt_head : string :=
  concat_all (map (fun line => line ++ nl)
    [ "";
      "You are a regulated tax consultant.";
      "";
      "MANDATORY RULES (NON-NEGOTIABLE):";
      "- Every response MUST include citations";
      "- Citations MUST reference real tax laws, regulations, or official guidance";
      "- Return ONLY valid JSON in the format below";
      "";
      "FORMAT:";
      "{";
      field "  " "answer" "Clear and professional response" ",";
      "  " ++ dquote ++ "citations" ++ dquote ++ ": [";
      "    {";
      field "      " "source" "Document name" ",";
      field "      " "section" "Section or clause" ",";
      field "      " "reference" "Exact legal citation" "";
      "    }";
      "  ]";
      "}";
      "";
      "If citations cannot be provided, respond with:";
      "{";
      field "  " "answer" "I cannot answer this question with certainty." ",";
      "  " ++ dquote ++ "citations" ++ dquote ++ ": []";
      "}";
      "";
      "User question:" ]).

Definition context_label : string := "DOCUMENT CONTEXT (FOR CITATION ONLY):".

(** An engine that answers every request with the given response. *)
Definition example_engine (status : Z) (content_type : option string)
           (body : result value) : request -> post_outcome :=
  fun _ => PostResponse status content_type body.

Definition example_history : list turn :=
  [MkTurn "user" (VStr "hi"); MkTurn "assistant" (VStr "hello")].

Definition example_message : Message.t := Message.Mk "What is the VAT rate?" [].

Definition example_world : world := MkWorld (Some example_history) [] [].

(** * Properties *)

(** ** Strings *)

Lemma append_assoc (a b c : string) : (a ++ b) ++ c = a ++ (b ++ c).
Proof.
  induction a as [|x a IH]; simpl; [reflexivity | now rewrite IH].
Qed.

Lemma append_nil_r (a : string) : a ++ "" = a.
Proof.
  induction a as [|x a IH]; simpl; [reflexivity | now rewrite IH].
Qed.

Lemma prefix_append (a t : string) : prefix a (a ++ t) = true.
Proof.
  induction a as [|x a IH]; simpl.
  - now destruct t.
  - destruct (ascii_dec x x) as [_|ne]; [exact IH | now elim ne].
Qed.

Lemma contains_append (a t : string) : contains a (a ++ t) = true.
Proof.
  destruct a as [|x a].
  - simpl. now destruct t.
  - change (contains (String x a) (String x a ++ t))
      with (prefix (String x a) (String x a ++ t)
            || contains (String x a) (a ++ t)).
    now rewrite prefix_append.
Qed.

(** A needle without a newline that starts in [s ++ nl ++ nl] lies in [s]. *)
Lemma prefix_before_newlines (needle s : string) :
  has_char "010" needle = false ->
  prefix needle (s ++ nl ++ nl) = prefix needle s.
Proof.
  revert needle; induction s as [|c s IH]; intros needle Hn.
  - destruct needle as [|x needle]; [reflexivity|].
    simpl in Hn. apply orb_false_elim in Hn as [Hx _].
    simpl. destruct (ascii_dec x "010") as [->|_]; [discriminate | reflexivity].
  - destruct needle as [|x needle]; [reflexivity|].
    simpl in Hn. apply orb_false_elim in Hn as [_ Hn].
    simpl. destruct (ascii_dec x c); [now apply IH | reflexivity].
Qed.

Lemma contains_before_newlines (needle s : string) :
  has_char "010" needle = false -> needle <> "" ->
  contains needle (s ++ nl ++ nl) = contains needle s.
Proof.
  intros Hn Hne. induction s as [|c s IH].
  - destruct needle as [|x needle]; [now elim Hne|].
    simpl in Hn. apply orb_false_elim in Hn as [Hx _].
    simpl. destruct (ascii_dec x "010") as [->|_]; [discriminate | reflexivity].
  - change (contains needle (String c s ++ nl ++ nl))
      with (prefix needle (String c s ++ nl ++ nl)
            || contains needle (s ++ nl ++ nl)).
    rewrite prefix_before_newlines by exact Hn.
    rewrite IH. reflexivity.
Qed.

(** ** The response normalizer *)

Lemma map_result_raise {A B} (f : A -> result B) (l : list A) (e : exn) :
  map_result f l = Raise e -> exists x, In x l /\ f x = Raise e.
Proof.
  induction l as [|x l IH]; simpl; [discriminate|].
  destruct (f x) as [y|e'] eqn:Hx; simpl.
  - destruct (map_result f l) as [ys|e'']; simpl; [discriminate|].
    intros [= <-]. destruct IH as [x' [Hin Hf]]; [reflexivity|].
    exists x'. split; [now right | exact Hf].
  - intros [= <-]. exists x. split; [now left | exact Hx].
Qed.

Lemma format_citation_raise (c : value) (e : exn) :
  format_citation c = Raise e -> exn_class e = ClsAttributeError.
Proof.
  destruct c; simpl; try discriminate; now intros [= <-].
Qed.

Lemma format_sources_raise (citations : value) (e : exn) :
  format_sources citations = Raise e ->
  exn_class e = ClsAttributeError \/ exn_class e = ClsTypeError.
Proof.
  unfold format_sources.
  destruct (py_iter citations) as [items|e'] eqn:Hit; simpl.
  - destruct (map_result format_citation items) as [ls|e''] eqn:Hm; simpl;
      [discriminate|].
    intros [= <-]. apply map_result_raise in Hm as [c [_ Hc]].
    left. now apply format_citation_raise with c.
  - intros [= <-]. right.
    destruct citations; simpl in Hit; try discriminate;
      now injection Hit as <-.
Qed.

Lemma attr_strip_raise (v : value) (e : exn) :
  attr_strip v = Raise e -> exn_class e = ClsAttributeError.
Proof.
  destruct v; simpl; try discriminate; now intros [= <-].
Qed.

Lemma extract_text_unfold (data : value) :
  extract_text data =
  if negb (truthy data) then Ok no_response
  else match data with
       | VList l => x <-! first_item l ;; render_record x
       | _ => render_record data
       end.
Proof.
  unfold extract_text, render_record.
  destruct (truthy data); simpl; [|reflexivity].
  destruct data; reflexivity.
Qed.

Lemma render_record_raise (data : value) (e : exn) :
  render_record data = Raise e ->
  exn_class e = ClsAttributeError \/ exn_class e = ClsTypeError.
Proof.
  destruct data; simpl; try discriminate. unfold render_answer.
  destruct (truthy (get d "citations" (VList []))); simpl; [|discriminate].
  destruct (format_sources (get d "citations" (VList []))) as [fs|e'] eqn:Hfs;
    simpl.
  - destruct (attr_strip (answer_of d)) as [s|e''] eqn:Hs; simpl; [discriminate|].
    intros [= <-]. left. now apply attr_strip_raise with (answer_of d).
  - intros [= <-]. now apply format_sources_raise with (get d "citations" (VList [])).
Qed.

Lemma extract_text_raise (data : value) (e : exn) :
  extract_text data = Raise e ->
  exn_class e = ClsAttributeError \/ exn_class e = ClsTypeError.
Proof.
  rewrite extract_text_unfold.
  destruct (truthy data) eqn:Ht; simpl; [|discriminate].
  destruct data; try apply render_record_raise.
  destruct l as [|x l]; [discriminate|]. simpl. apply render_record_raise.
Qed.

(** C10: a falsy input (the empty list, the empty string, 0, false, null, and
    every other value whose truth value is false) gets the fixed no-response
    message; the first element of an empty list is never taken, so no input
    makes [extract_text] raise an index error, and an empty list gives what
    null gives. *)
Theorem extract_text_falsy_no_response :
  (forall data, truthy data = false -> extract_text data = Ok no_response)
  /\ extract_text (VList []) = Ok no_response
  /\ extract_text (VStr "") = Ok no_response
  /\ extract_text (VInt 0) = Ok no_response
  /\ extract_text (VBool false) = Ok no_response
  /\ extract_text (VList []) = extract_text VNone
  /\ (forall data e, extract_text data = Raise e -> exn_class e <> ClsIndexError)
  /\ no_response
     = " No response received." ++ nl ++ nl ++ " Sources: None".
Proof.
  split.
  { intros data Hf. unfold extract_text. now rewrite Hf. }
  repeat split; try reflexivity.
  intros data e He. apply extract_text_raise in He as [-> | ->]; discriminate.
Qed.

Lemma extract_text_falsy_no_response_witness :
  truthy (VFloat (MkFloat true "0.0")) = false
  /\ extract_text (VFloat (MkFloat true "0.0")) = Ok no_response.
Proof.
  split.
  - reflexivity.
  - apply (proj1 extract_text_falsy_no_response). reflexivity.
Defined.

(** C1: [extract_text] is not total.  With a non-empty citations list it
    calls [answer.strip()] on whatever the answer field holds and [c.get] on
    every citation, and both raise [AttributeError] off their type. *)
Theorem extract_text_raises_on_malformed_fields :
  extract_text
    (VDict [("answer", VInt 5);
            ("citations", VList [VDict [("source", VStr "S")]])])
  = Raise (MkExn ClsAttributeError "'int' object has no attribute 'strip'")
  /\ extract_text
       (VDict [("answer", VStr "A"); ("citations", VList [VInt 1])])
     = Raise (MkExn ClsAttributeError "'int' object has no attribute 'get'").
Proof.
  split; reflexivity.
Qed.

Lemma map_result_format_citation (items : list value) :
  (exists ls, map_result format_citation items = Ok ls)
  <-> forallb is_dict items = true.
Proof.
  induction items as [|c items IH]; simpl.
  - split; [reflexivity | now exists []].
  - destruct c; simpl;
      try (split; [intros [ls H]; discriminate | discriminate]).
    destruct (map_result format_citation items) as [ls|e]; simpl.
    + split; [intros _; apply IH; now exists ls | intros _; eexists; reflexivity].
    + split; [intros [ls H]; discriminate|].
      intros H. apply IH in H as [ls H]. discriminate.
Qed.

Lemma extract_text_returns_iff (data : value) :
  (exists s, extract_text data = Ok s) <-> renders data = true.
Proof.
  assert (Hrec : forall x,
    (exists s, render_record x = Ok s) <->
    match x with
    | VDict d =>
        negb (truthy (get d "citations" (VList []))) ||
        (match py_iter (get d "citations" (VList [])) with
         | Ok items => forallb is_dict items
         | Raise _ => false
         end
         && match answer_of d with VStr _ => true | _ => false end)
    | _ => true
    end = true).
  { intros x. destruct x; simpl; try (split; [reflexivity | intros _; eexists; reflexivity]).
    unfold render_answer, format_sources.
    destruct (truthy (get d "citations" (VList []))); simpl;
      [|split; [reflexivity | intros _; eexists; reflexivity]].
    destruct (py_iter (get d "citations" (VList []))) as [items|e]; simpl;
      [|split; [intros [s H]; discriminate | discriminate]].
    pose proof (map_result_format_citation items) as Hm.
    destruct (map_result format_citation items) as [ls|e]; simpl.
    - replace (forallb is_dict items) with true
        by (symmetry; apply Hm; now exists ls).
      destruct (answer_of d); simpl;
        try (split; [intros [s H]; discriminate | discriminate]).
      split; [reflexivity | intros _; eexists; reflexivity].
    - split; [intros [s H]; discriminate|].
      intros H. apply andb_prop in H as [H _].
      apply Hm in H as [ls H]. discriminate. }
  rewrite extract_text_unfold. unfold renders.
  destruct (truthy data) eqn:Ht; simpl;
    [|split; [reflexivity | intros _; eexists; reflexivity]].
  destruct data; try apply Hrec.
  destruct l as [|x l]; [discriminate|]. simpl. apply Hrec.
Qed.

Lemma py_or_get (d : dict) (k : string) (rest : value) :
  py_or (get d k VNone) rest =
  match lookup d k with
  | Some v => if truthy v then v else rest
  | None => rest
  end.
Proof.
  unfold py_or, get. now destruct (lookup d k).
Qed.

Lemma answer_of_falsy (d : dict) :
  truthy (answer_of d) = false -> answer_of d = VStr "".
Proof.
  unfold answer_of, py_or.
  repeat match goal with
         | |- context [if truthy ?v then _ else _] =>
             destruct (truthy v) eqn:?
         end; congruence.
Qed.

Lemma get_nonempty (d : dict) (k : string) (default v : value) :
  get d k default = v -> v <> default -> d <> [].
Proof.
  intros Hg Hv ->. now apply Hv.
Qed.

Lemma format_citation_dict (c : dict) :
  format_citation (VDict c) = Ok (citation_line c).
Proof.
  unfold format_citation, citation_line, attr_get. cbn [rbind].
  unfold get. now destruct (lookup c "reference").
Qed.

Lemma map_result_format_dicts (cs : list dict) :
  map_result format_citation (map VDict cs) = Ok (map citation_line cs).
Proof.
  induction cs as [|c cs IH]; [reflexivity|].
  cbn [map map_result]. rewrite format_citation_dict, IH. reflexivity.
Qed.

Lemma extract_text_dict (d : dict) :
  d <> [] ->
  extract_text (VDict d)
  = render_answer (answer_of d) (get d "citations" (VList [])).
Proof.
  intros Hd. rewrite extract_text_unfold.
  destruct d; [now elim Hd | reflexivity].
Qed.

(** C7: the answer [extract_text] works with is the first present non-empty
    value among answer, response, output, cleanedResponse in that order, and
    the empty string when there is none. *)
Theorem answer_first_present_nonempty :
  (forall d, answer_of d = first_present_nonempty d answer_fields)
  /\ (forall d, d <> [] ->
        extract_text (VDict d)
        = render_answer (first_present_nonempty d answer_fields)
                        (get d "citations" (VList []))).
Proof.
  assert (H : forall d, answer_of d = first_present_nonempty d answer_fields).
  { intros d. unfold answer_of. rewrite !py_or_get. reflexivity. }
  split; [exact H|].
  intros d Hd. rewrite <- H. now apply extract_text_dict.
Qed.

Lemma answer_first_present_nonempty_witness :
  [("response", VStr ""); ("output", VStr "B"); ("cleanedResponse", VStr "C")]
    <> []
  /\ extract_text
       (VDict [("response", VStr ""); ("output", VStr "B");
               ("cleanedResponse", VStr "C")])
     = render_answer (VStr "B") (VList []).
Proof.
  split.
  - discriminate.
  - apply (proj2 answer_first_present_nonempty). discriminate.
Defined.

(** C2, exact string as the specification gives it: the code puts a space
    before [Sources:], so the result differs. *)
Lemma extract_text_example_cited_differs :
  extract_text example_cited
  <> Ok ("A" ++ nl ++ nl ++ "Sources:" ++ nl ++ "- S (R)").
Proof.
  discriminate.
Qed.

(** C2, amended: the example gives the answer, a blank line, the line
    [ Sources:] with its leading space, and [- S (R)]; and for every object
    with a string answer and a non-empty list of citation objects the result
    is the stripped answer followed by that header and one line per
    citation, with the reference when the citation has one and the section
    otherwise. *)
Theorem extract_text_sources_block :
  extract_text example_cited
  = Ok ("A" ++ nl ++ nl ++ " Sources:" ++ nl ++ "- S (R)")
  /\ (forall d a c cs,
        answer_of d = VStr a ->
        get d "citations" (VList []) = VList (map VDict (c :: cs)) ->
        extract_text (VDict d)
        = Ok (strip a ++ nl ++ nl ++ " Sources:" ++ nl
              ++ join nl (map citation_line (c :: cs))))
  /\ (forall c r,
        lookup c "reference" = Some r ->
        citation_line c
        = "- " ++ py_str (get c "source" VNone) ++ " (" ++ py_str r ++ ")")
  /\ (forall c,
        lookup c "reference" = None ->
        citation_line c
        = "- " ++ py_str (get c "source" VNone) ++ " ("
          ++ py_str (get c "section" (VStr "")) ++ ")").
Proof.
  split; [reflexivity|]. split; [|split].
  - intros d a c cs Ha Hc.
    rewrite extract_text_dict
      by (apply (get_nonempty _ _ _ _ Hc); discriminate).
    unfold render_answer. rewrite Ha, Hc.
    cbn [truthy map negb]. unfold format_sources. cbn [py_iter rbind].
    change (VDict c :: map VDict cs) with (map VDict (c :: cs)).
    rewrite map_result_format_dicts. reflexivity.
  - intros c r Hr. unfold citation_line. now rewrite Hr.
  - intros c Hr. unfold citation_line. now rewrite Hr.
Qed.

Lemma extract_text_sources_block_witness :
  extract_text (VDict example_two_citations)
  = Ok ("B" ++ nl ++ nl ++ " Sources:" ++ nl
        ++ "- S1 (R1)" ++ nl ++ "- S2 (s 9)").
Proof.
  exact (proj1 (proj2 extract_text_sources_block)
               example_two_citations " B "
               [("source", VStr "S1"); ("section", VStr "s 4");
                ("reference", VStr "R1")]
               [ [("source", VStr "S2"); ("section", VStr "s 9")] ]
               eq_refl eq_refl).
Defined.

(** C6, as stated for every object: the empty object is falsy, so it gets
    the no-response message, which ends in [Sources: None] and does not hold
    [Response rejected.], although its citations are absent and its answer is
    empty. *)
Lemma extract_text_empty_object_no_response :
  lookup [] "citations" = None
  /\ answer_of [] = VStr ""
  /\ extract_text (VDict []) = Ok no_response
  /\ contains "Sources:" no_response = true
  /\ contains "Response rejected." no_response = false.
Proof.
  repeat split; reflexivity.
Qed.

(** C6, amended: for every non-empty object whose citations are an empty
    list or absent, the result is the answer text and a blank line, nothing
    else: it holds the answer text, and holds [Sources:] only if the answer
    text does; with an empty answer the text is [Response rejected.]; and the
    example gives [A] and a blank line. *)
Theorem extract_text_without_citations :
  (forall d,
     d <> [] ->
     lookup d "citations" = None \/ lookup d "citations" = Some (VList []) ->
     (truthy (answer_of d) = true ->
      extract_text (VDict d) = Ok (py_str (answer_of d) ++ nl ++ nl)
      /\ contains (py_str (answer_of d)) (py_str (answer_of d) ++ nl ++ nl) = true
      /\ contains "Sources:" (py_str (answer_of d) ++ nl ++ nl)
         = contains "Sources:" (py_str (answer_of d)))
     /\ (truthy (answer_of d) = false ->
         extract_text (VDict d) = Ok ("Response rejected." ++ nl ++ nl)))
  /\ extract_text example_uncited = Ok ("A" ++ nl ++ nl)
  /\ contains "Sources:" ("A" ++ nl ++ nl) = false
  /\ contains "Sources:" ("Response rejected." ++ nl ++ nl) = false.
Proof.
  split; [|repeat split; reflexivity].
  intros d Hd Hc.
  assert (Hcit : truthy (get d "citations" (VList [])) = false).
  { unfold get. now destruct Hc as [-> | ->]. }
  rewrite (extract_text_dict d Hd). unfold render_answer. rewrite Hcit.
  cbn [negb]. unfold py_or. split; intros Ha; rewrite Ha.
  - split; [reflexivity|]. split.
    + apply contains_append.
    + apply contains_before_newlines; [reflexivity | discriminate].
  - reflexivity.
Qed.

Lemma extract_text_without_citations_witness :
  extract_text (VDict [("response", VInt 7)]) = Ok ("7" ++ nl ++ nl)
  /\ extract_text (VDict [("answer", VStr ""); ("citations", VList [])])
     = Ok ("Response rejected." ++ nl ++ nl).
Proof.
  split.
  - apply (proj1 (proj1 extract_text_without_citations
                          [("response", VInt 7)]
                          ltac:(discriminate) (or_introl eq_refl))
                 eq_refl).
  - apply (proj2 (proj1 extract_text_without_citations
                          [("answer", VStr ""); ("citations", VList [])]
                          ltac:(discriminate) (or_intror eq_refl))
                 eq_refl).
Defined.

(** ** The workflow client *)

(** With an address configured the client posts exactly one request; it
    returns what the body returns, and whatever the body raises is replaced
    by the [TypeError] of the first [except] clause. *)
Lemma call_n8n_chain_configured cfg user_message document_context w :
  str_truthy (N8N_WEBHOOK_URL cfg) = true ->
  call_n8n_chain cfg user_message document_context w
  = (match body_result
             (webhook cfg (request_of cfg user_message document_context)) with
     | Ok reply => Ok reply
     | Raise _ => Raise catching_non_exception
     end,
     posted w (request_of cfg user_message document_context)).
Proof.
  intros Hurl. unfold call_n8n_chain. rewrite Hurl. cbn [negb].
  unfold try_except, bind, post, body_result, posted, request_of.
  destruct (str_truthy document_context);
    match goal with
    | |- context [webhook cfg ?rq] => destruct (webhook cfg rq) as [e|st ct body]
    end; try reflexivity;
    (destruct (st =? 200); cbn [negb]; [|reflexivity]);
    (destruct (contains "application/json" _); cbn [negb]; [|reflexivity]);
    (destruct body as [data|e]; cbn [lift rbind]; [|reflexivity]);
    destruct (extract_text data); reflexivity.
Qed.

(** C8: without a configured webhook address (the variable unset or empty)
    the client returns the configuration message whatever the message and
    the document context are, and leaves the world as it was: no request is
    posted. *)
Theorem call_n8n_chain_unconfigured :
  forall cfg user_message document_context w,
    N8N_WEBHOOK_URL cfg = None \/ N8N_WEBHOOK_URL cfg = Some "" ->
    call_n8n_chain cfg user_message document_context w
    = (Ok " N8N_WEBHOOK_URL not configured.", w)
    /\ http_calls (snd (call_n8n_chain cfg user_message document_context w))
       = http_calls w.
Proof.
  intros cfg user_message document_context w Hurl.
  assert (E : call_n8n_chain cfg user_message document_context w
              = (Ok " N8N_WEBHOOK_URL not configured.", w)).
  { unfold call_n8n_chain. now destruct Hurl as [-> | ->]. }
  split; [exact E | now rewrite E].
Qed.

Lemma call_n8n_chain_unconfigured_witness :
  call_n8n_chain
    (example_env None (fun _ => PostResponse 200 (Some "application/json")
                                             (Ok (VStr "never asked"))))
    "What is the VAT rate?" (Some "FILE: a.txt") empty_world
  = (Ok " N8N_WEBHOOK_URL not configured.", empty_world).
Proof.
  apply (call_n8n_chain_unconfigured
           (example_env None (fun _ => PostResponse 200 (Some "application/json")
                                                    (Ok (VStr "never asked"))))).
  left. reflexivity.
Defined.

(** C3: when the request times out, whether before a response arrives or
    while its body is read, [asyncio.TimeoutError] is raised inside the
    [try]; testing it against [aiohttp.ClientTimeout] raises [TypeError],
    and that is what [call_n8n_chain] raises: it does not return the timeout
    message. *)
Theorem call_n8n_chain_timeout_raises :
  forall cfg user_message document_context w,
    str_truthy (N8N_WEBHOOK_URL cfg) = true ->
    webhook cfg (request_of cfg user_message document_context)
      = PostRaises timeout_error
    \/ webhook cfg (request_of cfg user_message document_context)
       = PostResponse 200 (Some "application/json") (Raise timeout_error) ->
    call_n8n_chain cfg user_message document_context w
    = (Raise catching_non_exception,
       posted w (request_of cfg user_message document_context))
    /\ fst (call_n8n_chain cfg user_message document_context w)
       <> Ok " Request to n8n timed out.".
Proof.
  intros cfg user_message document_context w Hurl Hto.
  assert (E : call_n8n_chain cfg user_message document_context w
              = (Raise catching_non_exception,
                 posted w (request_of cfg user_message document_context))).
  { rewrite (call_n8n_chain_configured _ _ _ _ Hurl).
    now destruct Hto as [-> | ->]. }
  split; [exact E | rewrite E; discriminate].
Qed.

Lemma call_n8n_chain_timeout_raises_witness :
  fst (call_n8n_chain
         (example_env (Some "http://n8n.local/webhook")
                      (fun _ => PostRaises timeout_error))
         "What is the VAT rate?" None empty_world)
  <> Ok " Request to n8n timed out.".
Proof.
  apply (call_n8n_chain_timeout_raises
           (example_env (Some "http://n8n.local/webhook")
                        (fun _ => PostRaises timeout_error))).
  - reflexivity.
  - left. reflexivity.
Defined.

(** ** The message handler and the session history *)

Lemma call_n8n_chain_run cfg user_message document_context w :
  fst (call_n8n_chain cfg user_message document_context w)
  = client_reply cfg user_message document_context
  /\ chat_history (snd (call_n8n_chain cfg user_message document_context w))
     = chat_history w.
Proof.
  unfold client_reply.
  destruct (str_truthy (N8N_WEBHOOK_URL cfg)) eqn:Hurl.
  - rewrite (call_n8n_chain_configured _ _ _ _ Hurl). split; reflexivity.
  - unfold call_n8n_chain. rewrite Hurl. split; reflexivity.
Qed.

Lemma history_extend_set (r0 : history_ref) (turns : list turn) (w0 w : world) :
  session_get w0 = (Ok r0, w0) ->
  chat_history w = chat_history w0 ->
  exists w',
    bind (extend r0 turns) session_set w = (Ok tt, w')
    /\ chat_history w' = Some (history w0 ++ turns)%list.
Proof.
  unfold session_get, history, bind, extend, session_set.
  intros Hget Hsame.
  destruct (chat_history w0) as [h|] eqn:Hh; injection Hget as <-;
    eexists; (split; [reflexivity|]); cbn; now rewrite ?Hsame.
Qed.

Lemma on_message_run cfg message w :
  exists w',
    on_message cfg message w
    = (match reply_of cfg message with
       | Ok _ => Ok tt
       | Raise e => Raise e
       end, w')
    /\ chat_history w'
       = match reply_of cfg message with
         | Ok reply => Some (history w ++ exchange message reply)%list
         | Raise _ => chat_history w
         end.
Proof.
  unfold reply_of, document_context_of, on_message.
  assert (Hget : exists r0, session_get w = (Ok r0, w)).
  { unfold session_get. destruct (chat_history w); eexists; reflexivity. }
  destruct Hget as [r0 Hget].
  unfold bind at 1. rewrite Hget.
  assert (Hrest : forall ctx w1,
    chat_history w1 = chat_history w ->
    exists w',
      (emit (MessageSent "") ;;;
       reply <- call_n8n_chain cfg (Message.content message) ctx ;;
       emit (MessageUpdated (strip reply)) ;;;
       chat_history <- extend r0 (exchange message reply) ;;
       session_set chat_history) w1
      = (match client_reply cfg (Message.content message) ctx with
         | Ok _ => Ok tt
         | Raise e => Raise e
         end, w')
      /\ chat_history w'
         = match client_reply cfg (Message.content message) ctx with
           | Ok reply => Some (history w ++ exchange message reply)%list
           | Raise _ => chat_history w
           end).
  { intros ctx w1 Hw1. unfold bind at 1. cbn [emit].
    unfold bind at 1.
    match goal with
    | |- context [call_n8n_chain cfg ?m ctx ?w2] =>
        destruct (call_n8n_chain_run cfg m ctx w2) as [Hfst Hsnd];
        destruct (call_n8n_chain cfg m ctx w2) as [res w3]
    end.
    cbn [fst snd] in Hfst, Hsnd. rewrite <- Hfst.
    destruct res as [reply|e].
    - unfold bind at 1. cbn [emit].
      match goal with
      | |- context [bind (extend r0 ?t) ?k ?w4] =>
          destruct (history_extend_set r0 t w w4 Hget) as [w' [Hrun Hhist]]
      end.
      { cbn. now rewrite Hsnd. }
      exists w'. split; [exact Hrun | exact Hhist].
    - exists w3. split; [reflexivity | now rewrite Hsnd]. }
  destruct (Message.elements message) as [|f files] eqn:Hfiles.
  - cbn [rbind]. unfold bind at 1. cbn [ret]. now apply Hrest.
  - unfold bind at 1. unfold with_step. unfold bind at 1. cbn [emit].
    unfold bind at 1, lift.
    destruct (read_documents cfg (f :: files)) as [text|e]; cbn [rbind].
    + unfold bind at 1. cbn [emit ret]. now apply Hrest.
    + eexists. split; reflexivity.
Qed.

(** The handler on the history: when a reply comes back, both turns of the
    exchange are added behind what was there; when anything raises, the
    history stays as it was. *)
Lemma on_message_history cfg message w :
  match reply_of cfg message with
  | Ok reply =>
      fst (on_message cfg message w) = Ok tt
      /\ chat_history (snd (on_message cfg message w))
         = Some (history w ++ exchange message reply)%list
  | Raise e =>
      fst (on_message cfg message w) = Raise e
      /\ chat_history (snd (on_message cfg message w)) = chat_history w
  end.
Proof.
  destruct (on_message_run cfg message w) as [w' [-> Hc]]. cbn [fst snd].
  destruct (reply_of cfg message);
    split; [reflexivity | exact Hc | reflexivity | exact Hc].
Qed.

Lemma alternates_app_exchange (h : list turn) (u a : turn) :
  role u = "user" -> role a = "assistant" ->
  alternates (h ++ [u; a]) = alternates h.
Proof.
  intros Hu Ha.
  assert (H : forall l,
    alternates (l ++ [u; a]) = alternates l
    /\ forall x, alternates (x :: l ++ [u; a]) = alternates (x :: l)).
  { induction l as [|y l [IH1 IH2]].
    - split; [cbn; now rewrite Hu, Ha|].
      intros x. cbn. now rewrite andb_false_r.
    - split; [apply IH2|].
      intros x. cbn [app alternates]. now rewrite IH1. }
  apply H.
Qed.

(** Every run of the handler keeps a history of whole exchanges whole. *)
Lemma on_message_keeps_alternation cfg message w :
  alternates (history w) = true ->
  alternates (history (snd (on_message cfg message w))) = true.
Proof.
  intros Halt. pose proof (on_message_history cfg message w) as H.
  unfold history at 1.
  destruct (reply_of cfg message) as [reply|e]; destruct H as [_ ->].
  - unfold exchange. now rewrite alternates_app_exchange.
  - exact Halt.
Qed.

(** C4: a message whose request times out.  [call_n8n_chain] raises (the
    defect of the timeout clause), so the handler stops before its update of
    the history: neither the user turn nor a timeout message is recorded. *)
Theorem on_message_timeout_drops_exchange :
  forall cfg message w,
    str_truthy (N8N_WEBHOOK_URL cfg) = true ->
    Message.elements message = [] ->
    webhook cfg (request_of cfg (Message.content message) None)
      = PostRaises timeout_error ->
    fst (on_message cfg message w) = Raise catching_non_exception
    /\ chat_history (snd (on_message cfg message w)) = chat_history w
    /\ history (snd (on_message cfg message w))
       <> (history w ++ exchange message " Request to n8n timed out.")%list.
Proof.
  intros cfg message w Hurl Hfiles Hto.
  pose proof (on_message_history cfg message w) as H.
  unfold reply_of, document_context_of, client_reply in H.
  rewrite Hfiles in H. cbn [rbind] in H. rewrite Hurl, Hto in H.
  cbn [body_result] in H. destruct H as [H1 H2].
  split; [exact H1|]. split; [exact H2|].
  unfold history at 1. rewrite H2. fold (history w).
  intros E. apply (f_equal (@List.length turn)) in E.
  rewrite List.length_app in E. cbn in E. lia.
Qed.

Lemma on_message_timeout_drops_exchange_witness :
  fst (on_message
         (example_env (Some "http://n8n.local/webhook")
                      (fun _ => PostRaises timeout_error))
         (Message.Mk "What is the VAT rate?" [])
         (MkWorld (Some [MkTurn "user" (VStr "hi"); MkTurn "assistant" (VStr "hello")])
                  [] []))
  = Raise catching_non_exception
  /\ chat_history
       (snd (on_message
               (example_env (Some "http://n8n.local/webhook")
                            (fun _ => PostRaises timeout_error))
               (Message.Mk "What is the VAT rate?" [])
               (MkWorld (Some [MkTurn "user" (VStr "hi");
                               MkTurn "assistant" (VStr "hello")])
                        [] [])))
     = Some [MkTurn "user" (VStr "hi"); MkTurn "assistant" (VStr "hello")].
Proof.
  pose proof (on_message_timeout_drops_exchange
                (example_env (Some "http://n8n.local/webhook")
                             (fun _ => PostRaises timeout_error))
                (Message.Mk "What is the VAT rate?" [])
                (MkWorld (Some [MkTurn "user" (VStr "hi");
                                MkTurn "assistant" (VStr "hello")])
                         [] [])
                eq_refl eq_refl eq_refl) as [H1 [H2 _]].
  split; [exact H1 | exact H2].
Defined.

(** ** Resuming a session *)

Lemma resume_step_spec (h : list turn) (step : dict) :
  resume_step h step = (h ++ turns_of_step step)%list.
Proof.
  unfold resume_step, turns_of_step, get, is_str.
  destruct (lookup step "type") as [[| | | |t| |]|];
    try (now rewrite app_nil_r).
  destruct (String.eqb t "user_message"); [reflexivity|].
  destruct (String.eqb t "assistant_message"); [reflexivity|].
  now rewrite app_nil_r.
Qed.

Lemma resume_loop_spec (l : list dict) (h : list turn) :
  fold_left resume_step l h = (h ++ flat_map turns_of_step l)%list.
Proof.
  revert h; induction l as [|step l IH]; intros h; cbn [fold_left flat_map].
  - now rewrite app_nil_r.
  - now rewrite IH, resume_step_spec, app_assoc.
Qed.

(** C5: resuming sets the session history to the turns of the thread's
    steps, in order, user and assistant messages only, whatever the history
    was before; the handler of [app.py] does the same; and the example
    thread gives the turns (user, hi), (assistant, hello). *)
Theorem on_chat_resume_rehydrates :
  (forall thread w,
     on_chat_resume thread w
     = (Ok tt, MkWorld (Some (rehydrate thread)) (http_calls w) (window w)))
  /\ (forall thread w, App.on_chat_resume thread w = on_chat_resume thread w)
  /\ (forall w,
        history (snd (on_chat_resume example_thread w))
        = [MkTurn "user" (VStr "hi"); MkTurn "assistant" (VStr "hello")])
  /\ (forall h step,
        lookup step "output" = None ->
        (lookup step "type" = Some (VStr "user_message") ->
         resume_step h step = (h ++ [MkTurn "user" (VStr "")])%list)
        /\ (lookup step "type" = Some (VStr "assistant_message") ->
            resume_step h step = (h ++ [MkTurn "assistant" (VStr "")])%list)).
Proof.
  assert (H : forall thread w,
    on_chat_resume thread w
    = (Ok tt, MkWorld (Some (rehydrate thread)) (http_calls w) (window w))).
  { intros thread w. unfold on_chat_resume, rehydrate, session_set.
    rewrite resume_loop_spec. now destruct (steps thread). }
  split; [exact H|]. split; [|split].
  - intros thread w. reflexivity.
  - intros w. rewrite H. reflexivity.
  - intros h step Hout. rewrite resume_step_spec. unfold turns_of_step.
    rewrite Hout. split; intros ->; reflexivity.
Qed.

Lemma on_chat_resume_rehydrates_witness :
  resume_step [MkTurn "user" (VStr "hi")] [("type", VStr "assistant_message")]
  = [MkTurn "user" (VStr "hi"); MkTurn "assistant" (VStr "")].
Proof.
  apply (proj2 (proj2 (proj2 (proj2 on_chat_resume_rehydrates))
                      [MkTurn "user" (VStr "hi")]
                      [("type", VStr "assistant_message")] eq_refl)).
  reflexivity.
Defined.

(** ** The document reader *)

Lemma fold_pages (pages : list string) (text : string) :
  fold_left (fun text page => text ++ page) pages text
  = text ++ concat_all pages.
Proof.
  revert text; induction pages as [|p pages IH]; intros text; cbn.
  - now rewrite append_nil_r.
  - now rewrite IH, append_assoc.
Qed.

Lemma read_body_extracted (cfg : env) (text : string) (document : document) :
  read_body cfg text document
  = (body <-! extracted cfg document ;; Ok (text ++ body)).
Proof.
  unfold read_body, extracted.
  destruct (endswith (path document) ".pdf").
  { destruct (pdf_pages cfg (path document)); cbn [rbind];
      [now rewrite fold_pages | reflexivity]. }
  destruct (endswith (path document) ".docx").
  { now destruct (docx_paragraphs cfg (path document)). }
  destruct (endswith (path document) ".txt").
  { now destruct (txt_content cfg (path document)). }
  cbn [rbind]. now rewrite append_nil_r.
Qed.

Lemma read_documents_loop_blocks (cfg : env) (body_of : document -> string)
      (documents : list document) (text : string) :
  (forall d, In d documents -> extracted cfg d = Ok (body_of d)) ->
  read_documents_loop cfg text documents
  = Ok (text ++ concat_all (map (block body_of) documents)).
Proof.
  revert text; induction documents as [|d documents IH]; intros text Hall.
  - cbn. now rewrite append_nil_r.
  - cbn [read_documents_loop map concat_all].
    rewrite read_body_extracted, (Hall d (or_introl eq_refl)). cbn [rbind].
    rewrite IH by (intros d' Hin; apply Hall; now right).
    unfold block, header. now rewrite !append_assoc.
Qed.

(** A reader that raises stops the whole batch: the first document whose
    extraction raises decides what [read_documents] raises. *)
Lemma read_documents_first_failure (cfg : env) (body_of : document -> string)
      (before after : list document) (d : document) (e : exn) :
  (forall d', In d' before -> extracted cfg d' = Ok (body_of d')) ->
  extracted cfg d = Raise e ->
  read_documents cfg (before ++ d :: after) = Raise e.
Proof.
  unfold read_documents. generalize "" as text.
  induction before as [|b before IH]; intros text Hall He.
  - cbn [app read_documents_loop]. now rewrite read_body_extracted, He.
  - cbn [app read_documents_loop].
    rewrite read_body_extracted, (Hall b (or_introl eq_refl)). cbn [rbind].
    apply IH; [|exact He]. intros d' Hin. apply Hall. now right.
Qed.

(** C9, as stated for every sequence of documents: a file that cannot be
    read makes [read_documents] raise, and no text is produced, not even for
    the document read before it. *)
Lemma read_documents_unreadable_file_raises :
  read_documents example_files
    [MkDocument "a.pdf" "/tmp/a.pdf"; MkDocument "lost.txt" "/tmp/lost.txt"]
  = Raise (MkExn (ClsOther "FileNotFoundError") "/tmp/lost.txt").
Proof.
  reflexivity.
Qed.

(** C9, amended: when the content of every document is extracted,
    [read_documents] returns one text made of the documents' blocks in input
    order, each the
    header line with the document's name followed by its content; a document
    with an unsupported extension needs no reader, cannot raise, and adds
    its header line only. *)
Theorem read_documents_layout :
  (forall cfg body_of documents,
     (forall d, In d documents -> extracted cfg d = Ok (body_of d)) ->
     read_documents cfg documents
     = Ok (concat_all (map (block body_of) documents)))
  /\ (forall cfg document,
        supported document = false -> extracted cfg document = Ok "")
  /\ (forall cfg documents,
        forallb (fun d => negb (supported d)) documents = true ->
        read_documents cfg documents = Ok (concat_all (map header documents)))
  /\ (forall body_of document,
        block body_of document
        = nl ++ nl ++ "FILE: " ++ name document ++ nl ++ body_of document).
Proof.
  assert (H1 : forall cfg body_of documents,
    (forall d, In d documents -> extracted cfg d = Ok (body_of d)) ->
    read_documents cfg documents
    = Ok (concat_all (map (block body_of) documents))).
  { intros cfg body_of documents Hall. unfold read_documents.
    now rewrite (read_documents_loop_blocks cfg body_of). }
  assert (H2 : forall cfg document,
    supported document = false -> extracted cfg document = Ok "").
  { intros cfg document Hs. unfold supported in Hs.
    apply orb_false_elim in Hs as [Hs Htxt].
    apply orb_false_elim in Hs as [Hpdf Hdocx].
    unfold extracted. now rewrite Hpdf, Hdocx, Htxt. }
  split; [exact H1|]. split; [exact H2|]. split.
  - intros cfg documents Hall.
    rewrite (H1 cfg (fun _ => "")).
    + f_equal. f_equal. apply map_ext. intros d. unfold block.
      apply append_nil_r.
    + intros d Hin. apply H2.
      rewrite forallb_forall in Hall. specialize (Hall d Hin).
      now destruct (supported d).
  - intros body_of document. unfold block, header.
    now rewrite !append_assoc.
Qed.

Lemma read_documents_layout_witness :
  read_documents example_files example_documents
  = Ok (nl ++ nl ++ "FILE: a.pdf" ++ nl ++ "page one page two"
        ++ nl ++ nl ++ "FILE: b.docx" ++ nl ++ "first" ++ nl ++ "second"
        ++ nl ++ nl ++ "FILE: c.txt" ++ nl ++ "plain text"
        ++ nl ++ nl ++ "FILE: d.png" ++ nl).
Proof.
  apply (proj1 read_documents_layout example_files example_body
               example_documents).
  intros d [<- | [<- | [<- | [<- | []]]]]; reflexivity.
Defined.

(** ** The prompt builder *)

Lemma append_cancel_l (p a b : string) : p ++ a = p ++ b -> a = b.
Proof.
  induction p as [|c p IH]; simpl; [trivial|].
  intros [= H]. now apply IH.
Qed.

Lemma append_newline_cancel (a b : string) : a ++ nl = b ++ nl -> a = b.
Proof.
  revert b; induction a as [|x a IH]; intros [|y b]; simpl; intros H.
  - reflexivity.
  - injection H as _ H. destruct b; discriminate.
  - injection H as _ H. destruct a; discriminate.
  - injection H as -> H. f_equal. now apply IH.
Qed.

Lemma contains_middle (a p t : string) : contains a (p ++ a ++ t) = true.
Proof.
  induction p as [|c p IH].
  - exact (contains_append a t).
  - change (contains a (String c p ++ a ++ t))
      with (prefix a (String c (p ++ a ++ t)) || contains a (p ++ a ++ t)).
    rewrite IH. apply orb_true_r.
Qed.

Lemma enforce_citation_prompt_split (user_message : string) :
  enforce_citation_prompt user_message = prompt_head ++ user_message ++ nl.
Proof.
  unfold enforce_citation_prompt. cbn [map concat_all].
  rewrite (append_nil_r (user_message ++ nl)). reflexivity.
Qed.

(** X1: the prompt is a fixed text, the user message as it is, and a
    newline; so the message can be read back from the prompt, and two
    different messages never give the same prompt. *)
Theorem enforce_citation_prompt_keeps_message :
  (forall user_message,
     enforce_citation_prompt user_message = prompt_head ++ user_message ++ nl)
  /\ (forall user_message,
        contains user_message (enforce_citation_prompt user_message) = true)
  /\ (forall m1 m2,
        m1 <> m2 -> enforce_citation_prompt m1 <> enforce_citation_prompt m2).
Proof.
  split; [exact enforce_citation_prompt_split|]. split.
  - intros m. rewrite enforce_citation_prompt_split. apply contains_middle.
  - intros m1 m2 Hne E. rewrite !enforce_citation_prompt_split in E.
    apply append_cancel_l, append_newline_cancel in E. now apply Hne.
Qed.

Lemma enforce_citation_prompt_keeps_message_witness :
  enforce_citation_prompt "Is VAT due?" <> enforce_citation_prompt "Is VAT due".
Proof.
  apply (proj2 (proj2 enforce_citation_prompt_keeps_message)). discriminate.
Defined.

(** ** The workflow client, further *)

Lemma call_n8n_chain_world cfg user_message document_context w :
  call_n8n_chain cfg user_message document_context w
  = (client_reply cfg user_message document_context,
     after_call cfg user_message document_context w).
Proof.
  unfold client_reply, after_call.
  destruct (str_truthy (N8N_WEBHOOK_URL cfg)) eqn:Hurl.
  - now rewrite (call_n8n_chain_configured _ _ _ _ Hurl).
  - unfold call_n8n_chain. now rewrite Hurl.
Qed.

(** X2: a response whose status is not 200 gives the status message with
    the code in decimal, whatever its headers and body are; the one request
    was posted. *)
Theorem call_n8n_chain_bad_status :
  forall cfg user_message document_context w status content_type body,
    str_truthy (N8N_WEBHOOK_URL cfg) = true ->
    webhook cfg (request_of cfg user_message document_context)
      = PostResponse status content_type body ->
    status <> 200 ->
    call_n8n_chain cfg user_message document_context w
    = (Ok (" n8n returned status " ++ str_of_Z status),
       posted w (request_of cfg user_message document_context)).
Proof.
  intros cfg m ctx w status ct body Hurl Hresp Hst.
  rewrite call_n8n_chain_world. unfold client_reply, after_call.
  rewrite Hurl, Hresp. cbn [body_result].
  apply Z.eqb_neq in Hst. now rewrite Hst.
Qed.

Lemma call_n8n_chain_bad_status_witness :
  call_n8n_chain
    (example_env (Some "http://n8n.local/webhook")
                 (example_engine 503 None (Raise timeout_error)))
    "Is VAT due?" None empty_world
  = (Ok " n8n returned status 503",
     posted empty_world
       (MkRequest "http://n8n.local/webhook"
                  (enforce_citation_prompt "Is VAT due?"))).
Proof.
  apply (call_n8n_chain_bad_status
           (example_env (Some "http://n8n.local/webhook")
                        (example_engine 503 None (Raise timeout_error)))
           "Is VAT due?" None empty_world 503 None (Raise timeout_error)).
  - reflexivity.
  - reflexivity.
  - discriminate.
Defined.

(** X3: a response with status 200 whose Content-Type header is missing or
    does not hold [application/json] gives the content-type message; the
    body is not decoded, so a body that cannot be decoded does no harm. *)
Theorem call_n8n_chain_bad_content_type :
  forall cfg user_message document_context w content_type body,
    str_truthy (N8N_WEBHOOK_URL cfg) = true ->
    webhook cfg (request_of cfg user_message document_context)
      = PostResponse 200 content_type body ->
    content_type = None
    \/ (exists c, content_type = Some c /\ contains "application/json" c = false) ->
    call_n8n_chain cfg user_message document_context w
    = (Ok " n8n returned invalid content type.",
       posted w (request_of cfg user_message document_context)).
Proof.
  intros cfg m ctx w ct body Hurl Hresp Hct.
  rewrite call_n8n_chain_world. unfold client_reply, after_call.
  rewrite Hurl, Hresp. cbn [body_result Z.eqb Pos.eqb negb].
  destruct Hct as [-> | [c [-> Hc]]]; [reflexivity | now rewrite Hc].
Qed.

Lemma call_n8n_chain_bad_content_type_witness :
  fst (call_n8n_chain
         (example_env (Some "http://n8n.local/webhook")
                      (example_engine 200 (Some "text/html; charset=utf-8")
                         (Raise (MkExn (ClsOther "JSONDecodeError") "Expecting value"))))
         "Is VAT due?" None empty_world)
  = Ok " n8n returned invalid content type.".
Proof.
  rewrite (call_n8n_chain_bad_content_type
             (example_env (Some "http://n8n.local/webhook")
                (example_engine 200 (Some "text/html; charset=utf-8")
                   (Raise (MkExn (ClsOther "JSONDecodeError") "Expecting value"))))
             "Is VAT due?" None empty_world (Some "text/html; charset=utf-8")
             (Raise (MkExn (ClsOther "JSONDecodeError") "Expecting value"))).
  - reflexivity.
  - reflexivity.
  - reflexivity.
  - right. exists "text/html; charset=utf-8". split; reflexivity.
Defined.

(** X4: a response with status 200 and a JSON content type is answered with
    what [extract_text] makes of the decoded body; parameters after the media
    type, as in [application/json; charset=utf-8], do not matter. *)
Theorem call_n8n_chain_normalizes_body :
  forall cfg user_message document_context w c data reply,
    str_truthy (N8N_WEBHOOK_URL cfg) = true ->
    webhook cfg (request_of cfg user_message document_context)
      = PostResponse 200 (Some c) (Ok data) ->
    contains "application/json" c = true ->
    extract_text data = Ok reply ->
    call_n8n_chain cfg user_message document_context w
    = (Ok reply, posted w (request_of cfg user_message document_context)).
Proof.
  intros cfg m ctx w c data reply Hurl Hresp Hc Hx.
  rewrite call_n8n_chain_world. unfold client_reply, after_call.
  rewrite Hurl, Hresp. cbn [body_result Z.eqb Pos.eqb negb].
  rewrite Hc. cbn [negb rbind]. now rewrite Hx.
Qed.

Lemma call_n8n_chain_normalizes_body_witness :
  fst (call_n8n_chain
         (example_env (Some "http://n8n.local/webhook")
                      (example_engine 200 (Some "application/json; charset=utf-8")
                                      (Ok (VList [example_cited; VInt 3]))))
         "Is VAT due?" (Some "FILE: a.txt") empty_world)
  = Ok ("A" ++ nl ++ nl ++ " Sources:" ++ nl ++ "- S (R)").
Proof.
  rewrite (call_n8n_chain_normalizes_body
             (example_env (Some "http://n8n.local/webhook")
                (example_engine 200 (Some "application/json; charset=utf-8")
                                (Ok (VList [example_cited; VInt 3]))))
             "Is VAT due?" (Some "FILE: a.txt") empty_world
             "application/json; charset=utf-8"
             (VList [example_cited; VInt 3])
             ("A" ++ nl ++ nl ++ " Sources:" ++ nl ++ "- S (R)")).
  - reflexivity.
  - reflexivity.
  - reflexivity.
  - reflexivity.
  - reflexivity.
Defined.

(** X5: whatever is raised inside the [try] (by the request, by decoding
    the body, by [extract_text]) leaves the client as the [TypeError] of the
    first [except] clause; the client raises nothing else, and the text of
    the second clause is never built from an exception. *)
Theorem call_n8n_chain_raises_type_error_only :
  (forall cfg user_message document_context w e,
     fst (call_n8n_chain cfg user_message document_context w) = Raise e ->
     e = catching_non_exception)
  /\ (forall cfg user_message document_context w e,
        str_truthy (N8N_WEBHOOK_URL cfg) = true ->
        body_result (webhook cfg (request_of cfg user_message document_context))
          = Raise e ->
        fst (call_n8n_chain cfg user_message document_context w)
        = Raise catching_non_exception).
Proof.
  split.
  - intros cfg m ctx w e. rewrite call_n8n_chain_world. cbn [fst].
    unfold client_reply.
    destruct (str_truthy (N8N_WEBHOOK_URL cfg)); [|discriminate].
    destruct (body_result _); [discriminate | now intros [= <-]].
  - intros cfg m ctx w e Hurl Hb. rewrite call_n8n_chain_world. cbn [fst].
    unfold client_reply. now rewrite Hurl, Hb.
Qed.

Lemma call_n8n_chain_raises_type_error_only_witness :
  fst (call_n8n_chain
         (example_env (Some "http://n8n.local/webhook")
                      (example_engine 200 (Some "application/json")
                         (Ok (VDict [("answer", VStr "A");
                                     ("citations", VList [VStr "IRC 61"])]))))
         "Is VAT due?" None empty_world)
  = Raise catching_non_exception.
Proof.
  apply (proj2 call_n8n_chain_raises_type_error_only
               (example_env (Some "http://n8n.local/webhook")
                  (example_engine 200 (Some "application/json")
                     (Ok (VDict [("answer", VStr "A");
                                 ("citations", VList [VStr "IRC 61"])]))))
               "Is VAT due?" None empty_world
               (attribute_error (VStr "IRC 61") "get")).
  - reflexivity.
  - reflexivity.
Defined.

(** X6: with an address configured the client posts exactly one request, to
    that address; its [chatInput] is the prompt of the user message, behind
    the labelled document context when one is given and not empty; the user
    message is part of it. *)
Theorem call_n8n_chain_posts_one_request :
  forall cfg user_message document_context w url,
    N8N_WEBHOOK_URL cfg = Some url -> url <> "" ->
    exists chatInput,
      http_calls (snd (call_n8n_chain cfg user_message document_context w))
      = (http_calls w ++ [MkRequest url chatInput])%list
      /\ contains user_message chatInput = true
      /\ chatInput
         = match document_context with
           | None => enforce_citation_prompt user_message
           | Some c =>
               if String.eqb c "" then enforce_citation_prompt user_message
               else context_label ++ nl ++ c ++ nl ++ nl
                    ++ enforce_citation_prompt user_message
           end.
Proof.
  intros cfg m ctx w url Hurl Hne.
  assert (Ht : str_truthy (N8N_WEBHOOK_URL cfg) = true).
  { rewrite Hurl. cbn. apply String.eqb_neq in Hne. now rewrite Hne. }
  rewrite call_n8n_chain_world. unfold after_call. rewrite Ht.
  cbn [snd posted http_calls]. unfold request_of. rewrite Hurl.
  eexists. split; [reflexivity|]. split.
  - destruct ctx as [c|]; cbn [str_truthy].
    + destruct (String.eqb c ""); cbn [negb].
      * rewrite enforce_citation_prompt_split. apply contains_middle.
      * rewrite enforce_citation_prompt_split.
        rewrite <- !append_assoc. rewrite append_assoc.
        apply contains_middle.
    + rewrite enforce_citation_prompt_split. apply contains_middle.
  - destruct ctx as [c|]; cbn [str_truthy]; [|reflexivity].
    now destruct (String.eqb c "").
Qed.

Lemma call_n8n_chain_posts_one_request_witness :
  exists chatInput,
    http_calls
      (snd (call_n8n_chain
              (example_env (Some "http://n8n.local/webhook")
                           (example_engine 500 None (Ok VNone)))
              "Is VAT due?" (Some "") empty_world))
    = [MkRequest "http://n8n.local/webhook" chatInput]
    /\ contains "Is VAT due?" chatInput = true
    /\ chatInput = enforce_citation_prompt "Is VAT due?".
Proof.
  apply (call_n8n_chain_posts_one_request
           (example_env (Some "http://n8n.local/webhook")
                        (example_engine 500 None (Ok VNone)))
           "Is VAT due?" (Some "") empty_world "http://n8n.local/webhook").
  - reflexivity.
  - discriminate.
Defined.

(** ** The response normalizer, further *)

(** X7: a non-empty list is answered from its first element alone: the
    other elements are never looked at, a first element that is a non-empty
    object is treated as that object would be, and any other first element
    that is no object is printed with [Sources: None], even a null one. *)
Theorem extract_text_list_first_only :
  (forall x rest rest',
     extract_text (VList (x :: rest)) = extract_text (VList (x :: rest')))
  /\ (forall d rest,
        d <> [] -> extract_text (VList (VDict d :: rest)) = extract_text (VDict d))
  /\ (forall x rest,
        is_dict x = false ->
        extract_text (VList (x :: rest))
        = Ok (py_str x ++ nl ++ nl ++ " Sources: None")).
Proof.
  split; [|split].
  - intros x rest rest'. now rewrite !extract_text_unfold.
  - intros d rest Hd. rewrite !extract_text_unfold.
    destruct d; [now elim Hd | reflexivity].
  - intros x rest Hx. rewrite extract_text_unfold.
    destruct x; try reflexivity. discriminate.
Qed.

Lemma extract_text_list_first_only_witness :
  extract_text (VList [example_cited; VStr "ignored"]) = extract_text example_cited
  /\ extract_text (VList [VNone; example_cited])
     = Ok ("None" ++ nl ++ nl ++ " Sources: None").
Proof.
  split.
  - apply (proj1 (proj2 extract_text_list_first_only)). discriminate.
  - apply (proj2 (proj2 extract_text_list_first_only) VNone). reflexivity.
Defined.

(** X8: [extract_text] returns a string exactly on the inputs described by
    [renders]; on every other input it raises, and what it raises is an
    [AttributeError] or a [TypeError]. *)
Theorem extract_text_returns_or_raises :
  forall data,
    (renders data = true -> exists s, extract_text data = Ok s)
    /\ (renders data = false ->
        exists e, extract_text data = Raise e
                  /\ (exn_class e = ClsAttributeError
                      \/ exn_class e = ClsTypeError)).
Proof.
  intros data. split.
  - intros H. now apply extract_text_returns_iff.
  - intros H. destruct (extract_text data) as [s|e] eqn:E.
    + assert (R : renders data = true)
        by (apply extract_text_returns_iff; now exists s).
      congruence.
    + exists e. split; [reflexivity | now apply extract_text_raise with data].
Qed.

Lemma extract_text_returns_or_raises_witness :
  (exists s, extract_text (VDict example_two_citations) = Ok s)
  /\ (exists e,
        extract_text (VDict [("answer", VStr "A"); ("citations", VInt 3)])
        = Raise e
        /\ (exn_class e = ClsAttributeError \/ exn_class e = ClsTypeError)).
Proof.
  split.
  - apply (proj1 (extract_text_returns_or_raises (VDict example_two_citations))).
    reflexivity.
  - apply (proj2 (extract_text_returns_or_raises
                    (VDict [("answer", VStr "A"); ("citations", VInt 3)]))).
    reflexivity.
Defined.

(** X9: a citations field that is null, false, 0, an empty string, an empty
    object or an empty list counts as no citations: the result is the answer
    text (or [Response rejected.]) and a blank line. *)
Theorem extract_text_falsy_citations :
  forall d c,
    lookup d "citations" = Some c ->
    In c [VNone; VBool false; VInt 0; VStr ""; VDict []; VList []] ->
    extract_text (VDict d)
    = Ok (py_str (py_or (answer_of d) (VStr "Response rejected.")) ++ nl ++ nl).
Proof.
  intros d c Hl Hc.
  assert (Hd : d <> []) by (intros ->; discriminate).
  rewrite (extract_text_dict d Hd). unfold render_answer, get. rewrite Hl.
  cbn in Hc.
  destruct Hc as [<- | [<- | [<- | [<- | [<- | [<- | []]]]]]]; reflexivity.
Qed.

Lemma extract_text_falsy_citations_witness :
  extract_text (VDict [("output", VStr "B"); ("citations", VNone)])
  = Ok ("B" ++ nl ++ nl).
Proof.
  apply (extract_text_falsy_citations
           [("output", VStr "B"); ("citations", VNone)] VNone).
  - reflexivity.
  - left. reflexivity.
Defined.

Lemma blank_line_inside (a b : string) :
  contains (nl ++ nl) (a ++ nl ++ nl ++ b) = true /\ a ++ nl ++ nl ++ b <> "".
Proof.
  split.
  - exact (contains_middle (nl ++ nl) a b).
  - destruct a; discriminate.
Qed.

Lemma Ok_inj {A} (a b : A) : Ok a = Ok b -> a = b.
Proof.
  now intros [= ->].
Qed.

(** X10: a string returned by [extract_text] is never empty and always
    holds a blank line (two newlines in a row). *)
Theorem extract_text_result_has_blank_line :
  forall data s,
    extract_text data = Ok s -> s <> "" /\ contains (nl ++ nl) s = true.
Proof.
  assert (Hrec : forall x s,
    render_record x = Ok s -> s <> "" /\ contains (nl ++ nl) s = true).
  { intros x s. destruct x as [| b | z | f | s0 | l | d]; cbn [render_record];
      try (intros H; apply Ok_inj in H; subst s; split; apply blank_line_inside).
    unfold render_answer.
    destruct (truthy (get d "citations" (VList []))); cbn [negb].
    - destruct (format_sources _) as [fs|]; cbn [rbind]; [|discriminate].
      destruct (attr_strip _) as [a|]; cbn [rbind]; [|discriminate].
      intros H; apply Ok_inj in H; subst s. split; apply blank_line_inside.
    - intros H; apply Ok_inj in H; subst s.
      rewrite <- (append_nil_r nl) at 2 4.
      split; apply blank_line_inside. }
  intros data s. rewrite extract_text_unfold.
  destruct (truthy data) eqn:Ht; cbn [negb].
  - destruct data; try apply Hrec.
    destruct l as [|x l]; [discriminate|]. apply Hrec.
  - intros H; apply Ok_inj in H; subst s. split; apply blank_line_inside.
Qed.

Lemma extract_text_result_has_blank_line_witness :
  "7" ++ nl ++ nl <> "" /\ contains (nl ++ nl) ("7" ++ nl ++ nl) = true.
Proof.
  apply (extract_text_result_has_blank_line (VDict [("response", VInt 7)])).
  reflexivity.
Defined.

(** ** The document reader, further *)

(** X11: the first document whose reader raises stops the whole batch:
    [read_documents] raises that exception and the text of the documents
    before it is lost. *)
Theorem read_documents_aborts_on_failure :
  forall cfg body_of before after d e,
    (forall d', In d' before -> extracted cfg d' = Ok (body_of d')) ->
    extracted cfg d = Raise e ->
    read_documents cfg (before ++ d :: after) = Raise e.
Proof.
  intros cfg body_of before after d e.
  apply read_documents_first_failure.
Qed.

Lemma read_documents_aborts_on_failure_witness :
  read_documents example_files
    ([MkDocument "a.pdf" "/tmp/a.pdf"]
     ++ MkDocument "lost.txt" "/tmp/lost.txt" :: [MkDocument "c.txt" "/tmp/c.txt"])
  = Raise (MkExn (ClsOther "FileNotFoundError") "/tmp/lost.txt").
Proof.
  apply (read_documents_aborts_on_failure example_files example_body).
  - intros d' [<- | []]. reflexivity.
  - reflexivity.
Defined.

Lemma read_documents_loop_shift (cfg : env) (documents : list document)
      (text : string) :
  read_documents_loop cfg text documents
  = (t <-! read_documents_loop cfg "" documents ;; Ok (text ++ t)).
Proof.
  revert text; induction documents as [|d documents IH]; intros text.
  - cbn. now rewrite append_nil_r.
  - cbn [read_documents_loop]. rewrite !read_body_extracted.
    destruct (extracted cfg d) as [body|e]; cbn [rbind]; [|reflexivity].
    rewrite IH. rewrite (IH (_ ++ body)).
    destruct (read_documents_loop cfg "" documents) as [t|e]; cbn [rbind];
      [|reflexivity].
    cbn [append]. now rewrite !append_assoc.
Qed.

(** X12: reading a batch made of two batches gives the text of the first
    followed by the text of the second, and raises what the first raises,
    or else what the second raises. *)
Theorem read_documents_concatenates :
  forall cfg first second,
    read_documents cfg (first ++ second)
    = (t1 <-! read_documents cfg first ;;
       t2 <-! read_documents cfg second ;;
       Ok (t1 ++ t2)).
Proof.
  intros cfg first second. unfold read_documents.
  generalize "" at 1 2 as text.
  induction first as [|d first IH]; intros text.
  - cbn [app read_documents_loop rbind]. apply read_documents_loop_shift.
  - cbn [app read_documents_loop].
    destruct (read_body cfg _ d) as [t|e]; cbn [rbind]; [apply IH | reflexivity].
Qed.

Lemma endswith_tail (s suffix : string) (c : ascii) :
  endswith (String c s) suffix = String.eqb (String c s) suffix || endswith s suffix.
Proof.
  reflexivity.
Qed.

Lemma endswith_exclusive (p : string) :
  (endswith p ".pdf" = true ->
   endswith p ".docx" = false /\ endswith p ".txt" = false)
  /\ (endswith p ".docx" = true -> endswith p ".txt" = false).
Proof.
  induction p as [|c p [IH1 IH2]]; [split; discriminate|].
  rewrite !endswith_tail. split.
  - intros H. apply orb_prop in H as [H | H].
    + apply String.eqb_eq in H. injection H as -> ->. split; reflexivity.
    + destruct (IH1 H) as [Hd Ht]. rewrite Hd, Ht, !orb_false_r.
      split; apply String.eqb_neq; intros E; injection E as -> ->;
        vm_compute in H; discriminate.
  - intros H. apply orb_prop in H as [H | H].
    + apply String.eqb_eq in H. injection H as -> ->. reflexivity.
    + rewrite (IH2 H), orb_false_r.
      apply String.eqb_neq; intros E; injection E as -> ->;
        vm_compute in H; discriminate.
Qed.

(** X13: the reader of a document is chosen by the ending of its path
    alone.  The endings [.pdf], [.docx] and [.txt] exclude one another, so
    the branch of [read_documents] for an ending is taken whenever the path
    has that ending, the tests tried before it notwithstanding: the text
    grows by the page texts, by the paragraphs joined with newlines, or by
    the content of the text file, and by nothing for any other path. *)
Theorem read_documents_one_reader :
  forall cfg text document,
    (endswith (path document) ".pdf" = true ->
     endswith (path document) ".docx" = false
     /\ endswith (path document) ".txt" = false
     /\ read_body cfg text document
        = (doc <-! pdf_pages cfg (path document) ;;
           Ok (text ++ concat_all doc)))
    /\ (endswith (path document) ".docx" = true ->
        endswith (path document) ".pdf" = false
        /\ endswith (path document) ".txt" = false
        /\ read_body cfg text document
           = (paragraphs <-! docx_paragraphs cfg (path document) ;;
              Ok (text ++ join nl paragraphs)))
    /\ (endswith (path document) ".txt" = true ->
        endswith (path document) ".pdf" = false
        /\ endswith (path document) ".docx" = false
        /\ read_body cfg text document
           = (content <-! txt_content cfg (path document) ;;
              Ok (text ++ content)))
    /\ (endswith (path document) ".pdf" = false ->
        endswith (path document) ".docx" = false ->
        endswith (path document) ".txt" = false ->
        read_body cfg text document = Ok text).
Proof.
  intros cfg text document.
  destruct (endswith_exclusive (path document)) as [Hpdf Hdocx].
  unfold read_body.
  destruct (endswith (path document) ".pdf") eqn:Ep;
    destruct (endswith (path document) ".docx") eqn:Ed;
    destruct (endswith (path document) ".txt") eqn:Et;
    try (destruct (Hpdf eq_refl); discriminate);
    try (specialize (Hdocx eq_refl); discriminate);
    repeat split; try discriminate; try reflexivity.
  destruct (pdf_pages cfg (path document)); cbn [rbind];
    [now rewrite fold_pages | reflexivity].
Qed.

Lemma read_documents_one_reader_witness :
  endswith "/tmp/b.docx" ".pdf" = false
  /\ endswith "/tmp/b.docx" ".txt" = false
  /\ read_body example_files "seen so far: " (MkDocument "b.docx" "/tmp/b.docx")
     = Ok ("seen so far: " ++ "first" ++ nl ++ "second").
Proof.
  apply (proj1 (proj2 (read_documents_one_reader
                         example_files "seen so far: "
                         (MkDocument "b.docx" "/tmp/b.docx")))).
  reflexivity.
Defined.

(** ** The message handler, further *)

Lemma on_message_equation cfg message w :
  on_message cfg message w = on_message_outcome cfg message w.
Proof.
  unfold on_message, on_message_outcome, document_context_of, after_reading.
  destruct w as [ch calls win].
  assert (Htail : forall r0 ctx w1,
    chat_history w1 = ch ->
    r0 = match ch with Some _ => Stored | None => Private [] end ->
    (emit (MessageSent "") ;;;
     reply <- call_n8n_chain cfg (Message.content message) ctx ;;
     emit (MessageUpdated (strip reply)) ;;;
     chat_history <- extend r0
                       [ MkTurn "user" (VStr (Message.content message));
                         MkTurn "assistant" (VStr reply) ] ;;
     session_set chat_history) w1
    = match client_reply cfg (Message.content message) ctx with
      | Raise e =>
          (Raise e,
           after_call cfg (Message.content message) ctx
                      (shown w1 [MessageSent ""]))
      | Ok reply =>
          (Ok tt,
           MkWorld (Some (history (MkWorld ch calls win)
                          ++ exchange message reply)%list)
                   (http_calls (after_call cfg (Message.content message) ctx
                                           (shown w1 [MessageSent ""])))
                   (window (after_call cfg (Message.content message) ctx
                                       (shown w1 [MessageSent ""]))
                    ++ [MessageUpdated (strip reply)]))
      end).
  { intros r0 ctx w1 Hch ->. unfold bind at 1. cbn [emit].
    unfold bind at 1. rewrite call_n8n_chain_world.
    fold (shown w1 [MessageSent ""]).
    destruct (client_reply cfg (Message.content message) ctx) as [reply|e];
      [|reflexivity].
    unfold bind, emit, extend, session_set, after_call, posted, shown, history,
      exchange.
    destruct (str_truthy (N8N_WEBHOOK_URL cfg)); cbn; rewrite Hch;
      destruct ch; reflexivity. }
  unfold bind at 1. unfold session_get at 1. cbn [chat_history].
  replace (match ch with
           | Some _ => (Ok Stored, MkWorld ch calls win)
           | None => (Ok (Private []), MkWorld ch calls win)
           end)
    with (Ok (match ch with Some _ => Stored | None => Private [] end),
          MkWorld ch calls win) by now destruct ch.
  destruct (Message.elements message) as [|f files].
  - unfold bind at 1. cbn [ret rbind]. now apply Htail.
  - unfold bind at 1. unfold with_step. unfold bind at 1. cbn [emit].
    unfold bind at 1. unfold lift.
    destruct (read_documents cfg (f :: files)) as [text|e]; cbn [rbind];
      [|unfold after_failed_reading, shown;
        cbn [chat_history http_calls window]; now rewrite <- app_assoc].
    unfold bind at 1. cbn [emit ret chat_history http_calls window].
    match goal with
    | |- _ ?w1 = _ =>
        replace w1
          with (shown (MkWorld ch calls win)
                  [StepSent "Reading documents";
                   StepUpdated "Reading documents"
                     ("Processed "
                      ++ str_of_Z (Z.of_nat (List.length (f :: files)))
                      ++ " document(s)");
                   StepUpdated "Reading documents"
                     ("Processed "
                      ++ str_of_Z (Z.of_nat (List.length (f :: files)))
                      ++ " document(s)")])
          by (unfold shown; cbn [chat_history http_calls window];
              now rewrite <- !app_assoc)
    end.
    now apply Htail.
Qed.

(** X14: one run of the handler either adds the whole exchange, the user
    turn and then the reply as assistant turn, behind the history it found,
    or, when reading an attachment or calling the client raises, leaves the
    stored history as it was. *)
Theorem on_message_pair_or_nothing :
  forall cfg message w,
    (forall reply,
       reply_of cfg message = Ok reply ->
       fst (on_message cfg message w) = Ok tt
       /\ history (snd (on_message cfg message w))
          = (history w ++ exchange message reply)%list)
    /\ (forall e,
          reply_of cfg message = Raise e ->
          fst (on_message cfg message w) = Raise e
          /\ chat_history (snd (on_message cfg message w)) = chat_history w).
Proof.
  intros cfg message w.
  pose proof (on_message_history cfg message w) as H.
  split.
  - intros reply Hr. rewrite Hr in H. destruct H as [H1 H2].
    split; [exact H1|]. unfold history at 1. now rewrite H2.
  - intros e He. now rewrite He in H.
Qed.

Lemma on_message_pair_or_nothing_witness :
  history
    (snd (on_message
            (example_env (Some "http://n8n.local/webhook")
                         (example_engine 502 None (Ok VNone)))
            example_message example_world))
  = (example_history
     ++ [MkTurn "user" (VStr "What is the VAT rate?");
         MkTurn "assistant" (VStr " n8n returned status 502")])%list.
Proof.
  apply (proj1 (on_message_pair_or_nothing
                  (example_env (Some "http://n8n.local/webhook")
                               (example_engine 502 None (Ok VNone)))
                  example_message example_world)
               " n8n returned status 502").
  reflexivity.
Defined.

(** X15: once the attachments are read, the handler shows an empty
    placeholder; when the client returns, the placeholder is updated with the
    reply stripped of surrounding white space, and when the client raises, the
    empty placeholder is all that was shown. *)
Theorem on_message_placeholder :
  forall cfg message w ctx,
    document_context_of cfg message = Ok ctx ->
    (forall reply,
       client_reply cfg (Message.content message) ctx = Ok reply ->
       window (snd (on_message cfg message w))
       = (window (after_reading message w)
          ++ [MessageSent ""; MessageUpdated (strip reply)])%list)
    /\ (forall e,
          client_reply cfg (Message.content message) ctx = Raise e ->
          window (snd (on_message cfg message w))
          = (window (after_reading message w) ++ [MessageSent ""])%list).
Proof.
  intros cfg message w ctx Hctx.
  rewrite on_message_equation. unfold on_message_outcome. rewrite Hctx.
  assert (Hw : forall w1,
    window (after_call cfg (Message.content message) ctx w1) = window w1).
  { intros w1. unfold after_call.
    now destruct (str_truthy (N8N_WEBHOOK_URL cfg)). }
  split.
  - intros reply ->. cbn [snd window]. rewrite Hw. cbn [shown window].
    now rewrite <- app_assoc.
  - intros e ->. cbn [snd]. now rewrite Hw.
Qed.

Lemma on_message_placeholder_witness :
  window
    (snd (on_message
            (example_env (Some "http://n8n.local/webhook")
                         (example_engine 200 (Some "application/json")
                                         (Ok example_uncited)))
            example_message example_world))
  = [MessageSent ""; MessageUpdated "A"].
Proof.
  apply (proj1 (on_message_placeholder
                  (example_env (Some "http://n8n.local/webhook")
                               (example_engine 200 (Some "application/json")
                                               (Ok example_uncited)))
                  example_message example_world None eq_refl)
               ("A" ++ nl ++ nl)).
  reflexivity.
Defined.

(** X16: when an attachment cannot be read the handler raises what the
    reader raised; all that was shown is the step, sent and then marked as
    failed with the text of the exception: no placeholder message was sent,
    no request was posted, and the history is as it was. *)
Theorem on_message_unreadable_attachment :
  forall cfg message w f files e,
    Message.elements message = f :: files ->
    read_documents cfg (f :: files) = Raise e ->
    on_message cfg message w
    = (Raise e,
       MkWorld (chat_history w) (http_calls w)
               (window w ++ [StepSent "Reading documents";
                             StepFailed "Reading documents" (exn_msg e)])).
Proof.
  intros cfg message w f files e Hf He.
  rewrite on_message_equation.
  unfold on_message_outcome, document_context_of. now rewrite Hf, He.
Qed.

Lemma on_message_unreadable_attachment_witness :
  on_message example_files
             (Message.Mk "Summarise" [MkDocument "x.txt" "/tmp/x.txt"])
             example_world
  = (Raise (MkExn (ClsOther "FileNotFoundError") "/tmp/x.txt"),
     MkWorld (Some example_history) []
             [StepSent "Reading documents";
              StepFailed "Reading documents" "/tmp/x.txt"]).
Proof.
  apply (on_message_unreadable_attachment
           example_files
           (Message.Mk "Summarise" [MkDocument "x.txt" "/tmp/x.txt"])
           example_world (MkDocument "x.txt" "/tmp/x.txt") []).
  - reflexivity.
  - reflexivity.
Defined.

(** X17: without a configured webhook address, a message whose
    attachments, if it has any, can all be read is still handled to the end:
    the handler posts nothing and records the exchange with the
    configuration message as the assistant turn. *)
Theorem on_message_unconfigured :
  forall cfg message w ctx,
    N8N_WEBHOOK_URL cfg = None \/ N8N_WEBHOOK_URL cfg = Some "" ->
    document_context_of cfg message = Ok ctx ->
    fst (on_message cfg message w) = Ok tt
    /\ http_calls (snd (on_message cfg message w)) = http_calls w
    /\ history (snd (on_message cfg message w))
       = (history w
          ++ exchange message " N8N_WEBHOOK_URL not configured.")%list.
Proof.
  intros cfg message w ctx Hurl Hctx.
  rewrite on_message_equation. unfold on_message_outcome. rewrite Hctx.
  unfold client_reply, after_call.
  assert (Ht : str_truthy (N8N_WEBHOOK_URL cfg) = false)
    by now destruct Hurl as [-> | ->].
  rewrite Ht. cbn [fst snd http_calls shown].
  repeat split.
  unfold after_reading. now destruct (Message.elements message).
Qed.

Lemma on_message_unconfigured_witness :
  history (snd (on_message (example_env (Some "") (fun _ => PostRaises timeout_error))
                           example_message example_world))
  = (example_history
     ++ [MkTurn "user" (VStr "What is the VAT rate?");
         MkTurn "assistant" (VStr " N8N_WEBHOOK_URL not configured.")])%list.
Proof.
  apply (on_message_unconfigured
           (example_env (Some "") (fun _ => PostRaises timeout_error))
           example_message example_world None).
  - right. reflexivity.
  - reflexivity.
Defined.

Lemma read_documents_nonempty (cfg : env) (f : document) (files : list document)
      (text : string) :
  read_documents cfg (f :: files) = Ok text ->
  exists rest, text = nl ++ nl ++ "FILE: " ++ name f ++ nl ++ rest.
Proof.
  unfold read_documents. cbn [read_documents_loop].
  rewrite read_body_extracted.
  destruct (extracted cfg f) as [body|e]; cbn [rbind]; [|discriminate].
  rewrite read_documents_loop_shift.
  destruct (read_documents_loop cfg "" files) as [t|e]; cbn [rbind];
    [|discriminate].
  intros H. apply Ok_inj in H. subst text.
  exists (body ++ t). rewrite !append_assoc. reflexivity.
Qed.

(** X18: when a message comes with attachments that can all be read, the
    text of [read_documents] is never empty, so it is always sent along: the
    one request carries the labelled document context, which begins with the
    header of the first file, in front of the prompt. *)
Theorem on_message_sends_document_context :
  forall cfg message w f files text url,
    Message.elements message = f :: files ->
    read_documents cfg (f :: files) = Ok text ->
    N8N_WEBHOOK_URL cfg = Some url -> url <> "" ->
    http_calls (snd (on_message cfg message w))
    = (http_calls w
       ++ [MkRequest url
             (context_label ++ nl ++ text ++ nl ++ nl
              ++ enforce_citation_prompt (Message.content message))])%list
    /\ exists rest, text = nl ++ nl ++ "FILE: " ++ name f ++ nl ++ rest.
Proof.
  intros cfg message w f files text url Hf Hr Hurl Hne.
  destruct (read_documents_nonempty cfg f files text Hr) as [rest Hrest].
  split; [|now exists rest].
  rewrite on_message_equation.
  unfold on_message_outcome, document_context_of. rewrite Hf, Hr.
  cbn [rbind]. unfold after_call, after_reading. rewrite Hf, Hurl.
  assert (Ht : str_truthy (Some url) = true).
  { cbn. apply String.eqb_neq in Hne. now rewrite Hne. }
  rewrite Ht.
  assert (Hcalls : forall w1,
            http_calls w1 = http_calls w ->
            http_calls
              (posted (shown w1 [MessageSent ""])
                      (request_of cfg (Message.content message) (Some text)))
            = (http_calls w
               ++ [MkRequest url
                     (context_label ++ nl ++ text ++ nl ++ nl
                      ++ enforce_citation_prompt (Message.content message))])%list).
  { intros w1 Hw1. cbn [posted shown http_calls]. rewrite Hw1.
    unfold request_of. rewrite Hurl. rewrite Hrest at 1. reflexivity. }
  destruct (client_reply cfg (Message.content message) (Some text));
    cbn [snd http_calls]; now apply Hcalls.
Qed.

Lemma on_message_sends_document_context_witness :
  http_calls
    (snd (on_message
            (MkEnv (Some "http://n8n.local/webhook")
                   (example_engine 404 None (Ok VNone))
                   (pdf_pages example_files) (docx_paragraphs example_files)
                   (txt_content example_files))
            (Message.Mk "Summarise" [MkDocument "c.txt" "/tmp/c.txt"])
            empty_world))
  = [MkRequest "http://n8n.local/webhook"
       (context_label ++ nl
        ++ (nl ++ nl ++ "FILE: c.txt" ++ nl ++ "plain text") ++ nl ++ nl
        ++ enforce_citation_prompt "Summarise")].
Proof.
  apply (proj1 (on_message_sends_document_context
                  (MkEnv (Some "http://n8n.local/webhook")
                         (example_engine 404 None (Ok VNone))
                         (pdf_pages example_files) (docx_paragraphs example_files)
                         (txt_content example_files))
                  (Message.Mk "Summarise" [MkDocument "c.txt" "/tmp/c.txt"])
                  empty_world (MkDocument "c.txt" "/tmp/c.txt") []
                  (nl ++ nl ++ "FILE: c.txt" ++ nl ++ "plain text")
                  "http://n8n.local/webhook"
                  eq_refl eq_refl eq_refl ltac:(discriminate))).
Defined.

Lemma alternates_app (h1 h2 : list turn) :
  alternates h1 = true -> alternates (h1 ++ h2) = alternates h2.
Proof.
  intros H1.
  assert (H : forall l,
    (alternates l = true -> alternates (l ++ h2) = alternates h2)
    /\ forall x, alternates (x :: l) = true ->
                 alternates (x :: l ++ h2) = alternates h2).
  { induction l as [|y l [IHa IHb]].
    - split; [reflexivity | discriminate].
    - split; [apply IHb|].
      intros x. cbn [alternates app].
      destruct (String.eqb (role x) "user" && String.eqb (role y) "assistant");
        cbn [andb]; [exact IHa | discriminate]. }
  now apply H.
Qed.




(** ** Resuming a session, further *)

(** X20: a message handled after a resume is recorded behind the turns
    rebuilt from the thread, whatever the session held before the resume. *)
Theorem on_message_after_resume :
  forall cfg thread message w reply,
    reply_of cfg message = Ok reply ->
    history (snd (on_message cfg message (snd (on_chat_resume thread w))))
    = (rehydrate thread ++ exchange message reply)%list.
Proof.
  intros cfg thread message w reply Hr.
  pose proof (on_message_history cfg message (snd (on_chat_resume thread w)))
    as H.
  rewrite Hr in H. destruct H as [_ H].
  unfold history at 1. rewrite H.
  unfold on_chat_resume, rehydrate, session_set, history. cbn [snd chat_history].
  rewrite resume_loop_spec. now destruct (steps thread).
Qed.

Lemma on_message_after_resume_witness :
  history
    (snd (on_message (example_env None (fun _ => PostRaises timeout_error))
                     example_message
                     (snd (on_chat_resume example_thread example_world))))
  = [MkTurn "user" (VStr "hi"); MkTurn "assistant" (VStr "hello");
     MkTurn "user" (VStr "What is the VAT rate?");
     MkTurn "assistant" (VStr " N8N_WEBHOOK_URL not configured.")].
Proof.
  apply (on_message_after_resume
           (example_env None (fun _ => PostRaises timeout_error))
           example_thread example_message example_world
           " N8N_WEBHOOK_URL not configured.").
  reflexivity.
Defined.

Lemma turns_of_step_roles (step : dict) :
  turns_of_step step = []
  \/ exists t, turns_of_step step = [t]
               /\ (role t = "user" \/ role t = "assistant").
Proof.
  unfold turns_of_step.
  destruct (lookup step "type") as [[| | | |t| |]|]; try (now left).
  destruct (String.eqb t "user_message"); [right; eexists; split; eauto|].
  destruct (String.eqb t "assistant_message"); [right; eexists; split; eauto|].
  now left.
Qed.

Lemma turns_of_step_length (step : dict) :
  List.length (turns_of_step step) = if is_message_step step then 1%nat else 0%nat.
Proof.
  unfold turns_of_step, is_message_step, is_str, get.
  destruct (lookup step "type") as [[| | | |t| |]|]; try reflexivity.
  destruct (String.eqb t "user_message"); [reflexivity|].
  now destruct (String.eqb t "assistant_message").
Qed.

(** X21: the history rebuilt on resume has one turn per step whose type is
    [user_message] or [assistant_message], hence never more turns than the
    thread has steps, and every turn in it has the role user or assistant. *)
Theorem on_chat_resume_turns :
  forall thread w l,
    steps thread = Some l ->
    List.length (history (snd (on_chat_resume thread w)))
    = List.length (filter is_message_step l)
    /\ (List.length (history (snd (on_chat_resume thread w))) <= List.length l)%nat
    /\ Forall (fun t => role t = "user" \/ role t = "assistant")
              (history (snd (on_chat_resume thread w))).
Proof.
  intros thread w l Hl.
  assert (E : history (snd (on_chat_resume thread w)) = flat_map turns_of_step l).
  { unfold on_chat_resume, session_set, history. cbn [snd chat_history].
    now rewrite Hl, resume_loop_spec. }
  rewrite E. clear E Hl.
  assert (Hlen : List.length (flat_map turns_of_step l)
                 = List.length (filter is_message_step l)).
  { induction l as [|step l IH]; [reflexivity|].
    cbn [flat_map filter]. rewrite List.length_app, turns_of_step_length, IH.
    now destruct (is_message_step step). }
  split; [exact Hlen|]. split.
  - rewrite Hlen. apply filter_length_le.
  - clear Hlen. induction l as [|step l IH]; [constructor|].
    cbn [flat_map]. apply Forall_app. split; [|exact IH].
    destruct (turns_of_step_roles step) as [-> | [t [-> Ht]]];
      [constructor | constructor; [exact Ht | constructor]].
Qed.

Lemma on_chat_resume_turns_witness :
  List.length (history (snd (on_chat_resume example_thread example_world)))
  = 2%nat.
Proof.
  apply (proj1 (on_chat_resume_turns example_thread example_world _ eq_refl)).
Defined.

(** ** The handlers of [app.py] *)

Lemma app_on_message_run cfg message w :
  AppHandlers.on_message cfg message w
  = match (response <-! AppHandlers.create cfg
                          (AppHandlers.MkCompletion
                             (AppHandlers.system_turn
                              :: history w
                                 ++ [MkTurn "user" (VStr (Message.content message))])
                             "gpt-4o-mini" 0 500) ;;
           AppHandlers.first_choice response) with
    | Ok reply =>
        (Ok tt,
         MkWorld (Some (history w
                        ++ [MkTurn "user" (VStr (Message.content message));
                            MkTurn "assistant" (VStr reply)])%list)
                 (http_calls w) (window w ++ [MessageSent reply]))
    | Raise e =>
        (Raise e,
         MkWorld (option_map
                    (fun h => (h ++ [MkTurn "user" (VStr (Message.content message))])%list)
                    (chat_history w))
                 (http_calls w) (window w))
    end.
Proof.
  destruct w as [ch calls win].
  unfold AppHandlers.on_message, append_turn, bind, session_get, extend,
    contents, lift, session_set, emit, history.
  destruct ch as [h|]; cbn [chat_history http_calls window option_map app].
  - destruct (AppHandlers.create cfg _) as [response|e]; cbn [rbind];
      [|reflexivity].
    destruct (AppHandlers.first_choice response) as [reply|e]; [|reflexivity].
    now rewrite <- app_assoc.
  - destruct (AppHandlers.create cfg _) as [response|e]; cbn [rbind];
      [|reflexivity].
    destruct (AppHandlers.first_choice response) as [reply|e]; reflexivity.
Qed.

(** X22: the handler of [app.py] sends the model the system instruction
    followed by the whole history with the new user turn at its end; when the
    model answers, the text of the first choice is recorded as the assistant
    turn right behind the user turn and shown; further choices are ignored. *)
Theorem app_on_message_records_exchange :
  forall cfg message w reply others,
    AppHandlers.create cfg
      (AppHandlers.MkCompletion
         (AppHandlers.system_turn
          :: history w ++ [MkTurn "user" (VStr (Message.content message))])
         "gpt-4o-mini" 0 500)
    = Ok (reply :: others) ->
    AppHandlers.on_message cfg message w
    = (Ok tt,
       MkWorld (Some (history w ++ exchange message reply)%list)
               (http_calls w) (window w ++ [MessageSent reply])).
Proof.
  intros cfg message w reply others Hc.
  rewrite app_on_message_run, Hc. reflexivity.
Qed.

Lemma app_on_message_records_exchange_witness :
  AppHandlers.on_message
    (AppHandlers.MkOpenAI
       (fun rq => Ok [str_of_Z (Z.of_nat (List.length (AppHandlers.messages rq)));
                      "second choice"]))
    example_message example_world
  = (Ok tt,
     MkWorld (Some (example_history ++ exchange example_message "4")%list)
             [] [MessageSent "4"]).
Proof.
  apply (app_on_message_records_exchange
           (AppHandlers.MkOpenAI
              (fun rq => Ok [str_of_Z (Z.of_nat (List.length (AppHandlers.messages rq)));
                             "second choice"]))
           example_message example_world "4" ["second choice"]).
  reflexivity.
Defined.

(** X23: in [app.py] the user turn is appended to the stored list before the
    model is called; when the call raises, or returns no choice, the handler
    raises and the stored history keeps the user turn without an assistant
    turn, so a history of whole exchanges is no longer one. *)
Theorem app_on_message_failure_keeps_user_turn :
  forall cfg message w h e,
    chat_history w = Some h ->
    AppHandlers.create cfg
      (AppHandlers.MkCompletion
         (AppHandlers.system_turn
          :: h ++ [MkTurn "user" (VStr (Message.content message))])
         "gpt-4o-mini" 0 500)
    = Raise e
    \/ (AppHandlers.create cfg
          (AppHandlers.MkCompletion
             (AppHandlers.system_turn
              :: h ++ [MkTurn "user" (VStr (Message.content message))])
             "gpt-4o-mini" 0 500)
        = Ok [] /\ e = index_error) ->
    AppHandlers.on_message cfg message w
    = (Raise e,
       MkWorld (Some (h ++ [MkTurn "user" (VStr (Message.content message))])%list)
               (http_calls w) (window w))
    /\ (alternates h = true ->
        alternates (history (snd (AppHandlers.on_message cfg message w))) = false).
Proof.
  intros cfg message w h e Hh Hc.
  assert (E : AppHandlers.on_message cfg message w
              = (Raise e,
                 MkWorld (Some (h ++ [MkTurn "user" (VStr (Message.content message))])%list)
                         (http_calls w) (window w))).
  { rewrite app_on_message_run. unfold history. rewrite Hh.
    now destruct Hc as [-> | [-> ->]]. }
  split; [exact E|].
  intros Ha. rewrite E. cbn [snd history chat_history].
  now rewrite (alternates_app _ _ Ha).
Qed.

Lemma app_on_message_failure_keeps_user_turn_witness :
  AppHandlers.on_message
    (AppHandlers.MkOpenAI (fun _ => Raise timeout_error))
    example_message
    (snd (AppHandlers.on_chat_start None empty_world))
  = (Raise timeout_error,
     MkWorld (Some [MkTurn "user" (VStr "What is the VAT rate?")])
             [] [MessageSent "Hello there "]).
Proof.
  apply (proj1 (app_on_message_failure_keeps_user_turn
                  (AppHandlers.MkOpenAI (fun _ => Raise timeout_error))
                  example_message
                  (snd (AppHandlers.on_chat_start None empty_world))
                  [] timeout_error eq_refl (or_introl eq_refl))).
Defined.

(** X24: a session of [app.py] begins with an empty stored history, whatever
    the session held before, and a greeting by the user's identifier (or
    [there]); the first answered message leaves exactly its exchange. *)
Theorem app_session_first_exchange :
  forall cfg user message w reply others,
    AppHandlers.create cfg
      (AppHandlers.MkCompletion
         [AppHandlers.system_turn;
          MkTurn "user" (VStr (Message.content message))]
         "gpt-4o-mini" 0 500)
    = Ok (reply :: others) ->
    AppHandlers.on_message cfg message (snd (AppHandlers.on_chat_start user w))
    = (Ok tt,
       MkWorld (Some (exchange message reply)) (http_calls w)
               ((window w
                 ++ [MessageSent ("Hello "
                                  ++ match user with
                                     | Some u => identifier u
                                     | None => "there"
                                     end ++ " ")])
                ++ [MessageSent reply])).
Proof.
  intros cfg user message w reply others Hc.
  rewrite app_on_message_run.
  unfold AppHandlers.on_chat_start, bind, session_set, emit, history.
  cbn [snd fst chat_history http_calls window app]. now rewrite Hc.
Qed.

Lemma app_session_first_exchange_witness :
  AppHandlers.on_message
    (AppHandlers.MkOpenAI (fun _ => Ok ["Hello!"]))
    example_message
    (snd (AppHandlers.on_chat_start (AppHandlers.auth_callback "admin" "admin")
                                    example_world))
  = (Ok tt,
     MkWorld (Some (exchange example_message "Hello!")) []
             [MessageSent "Hello admin "; MessageSent "Hello!"]).
Proof.
  apply (app_session_first_exchange
           (AppHandlers.MkOpenAI (fun _ => Ok ["Hello!"]))
           (AppHandlers.auth_callback "admin" "admin")
           example_message example_world "Hello!" []).
  reflexivity.
Defined.

(** X25: the credential check accepts the pair (admin, admin) and no other,
    compared exactly; [tax.py] and [app.py] accept the same pairs and name the
    same identifier, [admin]. *)
Theorem auth_callback_accepts_admin_only :
  forall username password,
    ((exists u, auth_callback username password = Some u)
     <-> username = "admin" /\ password = "admin")
    /\ ((exists u, AppHandlers.auth_callback username password = Some u)
        <-> username = "admin" /\ password = "admin")
    /\ option_map identifier (AppHandlers.auth_callback username password)
       = option_map identifier (auth_callback username password)
    /\ (forall u, auth_callback username password = Some u ->
                  identifier u = "admin").
Proof.
  intros username password.
  unfold auth_callback, AppHandlers.auth_callback.
  destruct (String.eqb_spec username "admin") as [-> | Hu];
    destruct (String.eqb_spec password "admin") as [-> | Hp]; cbn [andb];
    repeat split; intros; try reflexivity; try discriminate;
    try (eexists; reflexivity);
    try (match goal with H : exists _, _ |- _ => destruct H; discriminate end);
    try (match goal with H : _ /\ _ |- _ => destruct H; congruence end);
    try (match goal with
         | H : Some _ = Some _ |- _ => injection H as <-; reflexivity
         end).
Qed.

Lemma auth_callback_accepts_admin_only_witness :
  exists u, auth_callback "admin" "admin" = Some u.
Proof.
  apply (proj2 (proj1 (auth_callback_accepts_admin_only "admin" "admin"))).
  split; reflexivity.
Defined.

(** X26: [get_data_layer] of [app.py] never raises when the constructor
    raises exceptions only: it returns a data layer exactly when
    [DATABASE_URL] is set to a non-empty value and the constructor returns
    one, built with logging off, and no data layer otherwise; every call
    prints at least one line. *)
Theorem app_get_data_layer_never_raises :
  forall cfg stdout,
    (forall url e,
       AppHandlers.SQLAlchemyDataLayer cfg url false = Raise e ->
       is_exception_class (exn_class e) = true) ->
    exists layer lines,
      AppHandlers.get_data_layer cfg stdout = (Ok layer, (stdout ++ lines)%list)
      /\ lines <> []
      /\ (forall l, layer = Some l <->
                    exists url, AppHandlers.DATABASE_URL cfg = Some url
                                /\ url <> ""
                                /\ AppHandlers.SQLAlchemyDataLayer cfg url false
                                   = Ok l).
Proof.
  intros cfg stdout Hexc. unfold AppHandlers.get_data_layer.
  destruct (AppHandlers.DATABASE_URL cfg) as [url|] eqn:Hurl; cbn [str_truthy].
  - destruct (String.eqb_spec url "") as [-> | Hne]; cbn [negb].
    + eexists; eexists. split; [reflexivity|]. split; [discriminate|].
      intros l. split; [discriminate|].
      intros [u [[= <-] [Hu _]]]. now elim Hu.
    + destruct (AppHandlers.SQLAlchemyDataLayer cfg url false) as [l0|e] eqn:Hc.
      * eexists; eexists. split; [reflexivity|]. split; [discriminate|].
        intros l. split.
        -- intros [= <-]. exists url. now repeat split.
        -- intros [u [[= <-] [_ Hl]]]. congruence.
      * unfold except_match, subclass. cbn [is_exception_class].
        rewrite (Hexc url e Hc).
        eexists; eexists. split; [reflexivity|]. split; [discriminate|].
        intros l. split; [discriminate|].
        intros [u [[= <-] [_ Hl]]]. congruence.
  - eexists; eexists. split; [reflexivity|]. split; [discriminate|].
    intros l. split; [discriminate|]. intros [u [Hu _]]. discriminate.
Qed.

Lemma app_get_data_layer_never_raises_witness :
  exists layer lines,
    AppHandlers.get_data_layer
      (AppHandlers.MkDbEnv
         (Some "postgresql://db/chat")
         (fun _ _ => Raise (MkExn (ClsOther "OperationalError") "connection refused")))
      []
    = (Ok layer, ([] ++ lines)%list)
    /\ lines <> []
    /\ (forall l, layer = Some l <->
                  exists url, Some "postgresql://db/chat" = Some url
                              /\ url <> ""
                              /\ Raise (MkExn (ClsOther "OperationalError")
                                              "connection refused")
                                 = Ok l).
Proof.
  apply (app_get_data_layer_never_raises
           (AppHandlers.MkDbEnv
              (Some "postgresql://db/chat")
              (fun _ _ => Raise (MkExn (ClsOther "OperationalError")
                                       "connection refused")))
           []).
  intros url e [= <-]. reflexivity.
Defined.
